(** * readTemp.c : acquisition and compensation for a barometric sensor on I2C

    A shallow embedding of [src/readTemp.c].  C integers are mathematical
    integers ([Z]) with every conversion and wrap-around written out;
    the I2C bus is an abstract transport whose calls are recorded in a
    trace; [exit] is an outcome of the program monad. *)

From Stdlib Require Import ZArith Lia List String Bool.
From stdpp Require Import base list.
From Equations Require Import Equations.
Import ListNotations.

Local Open Scope Z_scope.

(** ** C integer types *)

Module CInt.

(** Reduction to an unsigned [w]-bit value. *)
Definition wrap_u (w x : Z) : Z := x mod 2 ^ w.

(** Reduction to a signed two's complement [w]-bit value.  Signed
    overflow and the conversion of an out-of-range value to a signed
    type both wrap, as they do with the compilers the program targets. *)
Definition wrap_s (w x : Z) : Z := (x + 2 ^ (w - 1)) mod 2 ^ w - 2 ^ (w - 1).

Definition u8 : Z -> Z := wrap_u 8.
Definition u16 : Z -> Z := wrap_u 16.
Definition u32 : Z -> Z := wrap_u 32.
Definition u64 : Z -> Z := wrap_u 64.
Definition s8 : Z -> Z := wrap_s 8.
Definition s32 : Z -> Z := wrap_s 32.
Definition s64 : Z -> Z := wrap_s 64.

Definition INT_MIN : Z := - 2 ^ 31.
Definition INT_MAX : Z := 2 ^ 31 - 1.

End CInt.
Import CInt.

(** What the C implementation leaves to the platform: whether plain
    [char] is signed, and the width of [unsigned long]. *)
Record ABI : Type := mkABI {
  char_is_signed : bool;
  ulong_bits : Z
}.

(** 32-bit and 64-bit Raspberry Pi OS (plain [char] is unsigned on ARM),
    and x86-64 Linux for comparison. *)
Definition armhf : ABI := mkABI false 32.
Definition aarch64 : ABI := mkABI false 64.
Definition x86_64 : ABI := mkABI true 64.

Definition ulong (abi : ABI) : Z -> Z := wrap_u (ulong_bits abi).

(** The value of a stored byte read through an lvalue of type [char]. *)
Definition char_val (abi : ABI) (b : Z) : Z :=
  if char_is_signed abi then s8 b else u8 b.

(** ** Protocol constants *)

Definition CMD_RESET : Z := 0x1E.
Definition PROM_START : Z := 0xA0.
Definition PROM_STOP : Z := 0xAE.
Definition ADC_READ : Z := 0x00.
Definition CONVERT_D1_OSR8192 : Z := 0x4A.
Definition CONVERT_D2_OSR8192 : Z := 0x5A.
Definition EXIT_FAILURE : Z := 1.

(** ** Arrays *)

(** [a[i]] for an array held as a list; the program only reads slots
    that exist. *)
Definition aget (a : list Z) (i : nat) : Z :=
  match a !! i with Some x => x | None => 0 end.

(** ** Compensation arithmetic *)

(** The exponent read as an unsigned 32-bit number: the measure on
    which the recursion of [power] below is defined. *)
Definition power_calls (exp : Z) : nat := Z.to_nat (u32 exp).

#[local] Opaque power_calls s32.

(** [static int power(int base, int exp)]: the recursion of the source
    as a total function, with [exp - 1] and the product in wrapping
    [int] arithmetic, so that the recursion is well founded
    (decrementing a non-zero [int] decrements its unsigned reading).
    It is what the C call returns for the exponents on which the call
    returns, the ones that are not negative ([power_eval] below); the
    source calls it with exponent 2 only. *)
Equations power (base exp : Z) : Z by wf (power_calls exp) lt :=
  power base exp with Z.eq_dec (s32 exp) 0 := {
    | left _ => 1
    | right Hne => s32 (s32 base * power base (s32 (s32 exp - 1))) }.
Next Obligation.
  with_strategy transparent [power_calls s32]
    (unfold power_calls, u32, s32, wrap_u, wrap_s in * ).
  change (2 ^ (32 - 1)) with 2147483648 in *.
  change (2 ^ 32) with 4294967296 in *.
  apply Nat2Z.inj_lt.
  rewrite !Z2Nat.id by (apply Z.mod_pos_bound; lia).
  Z.to_euclidean_division_equations. lia.
Qed.

#[local] Transparent power_calls s32.


(** [static int32_t calcTempDiff(u_int32_t rawTemp, u_int16_t refTemp)]:
    [dTemp = rawTemp - refTemp * (1U << 8)] in [unsigned int], converted
    to [int]. *)
Definition calcTempDiff (rawTemp refTemp : Z) : Z :=
  let rawTemp := u32 rawTemp in
  let refTemp := u16 refTemp in
  let dTemp := s32 (u32 (rawTemp - u32 (refTemp * Z.shiftl 1 8))) in
  dTemp.

(** [static int32_t calcTemp(int32_t rawTemp, u_int16_t *proms)]:
    [dTemp * proms[6]] is an [int] product; dividing by [1UL << 23]
    converts it to [unsigned long]; the sum is converted to [int32_t].
    The two lines applying the second order correction are commented out
    in the source. *)
Definition calcTemp (abi : ABI) (rawTemp : Z) (proms : list Z) : Z :=
  let rawTemp := s32 rawTemp in
  let dTemp := calcTempDiff rawTemp (aget proms 5) in
  let temp :=
    s32 (ulong abi (ulong abi 2000
                    + ulong abi (s32 (dTemp * u16 (aget proms 6)))
                      / ulong abi (Z.shiftl 1 23))) in
  temp.

(** [static int secondOrderTempComp(int32_t temp, int32_t dTemp)]:
    [3 * power(dTemp, 2)] is an [int]; dividing by [1ULL << 32] converts
    it to [unsigned long long]; the quotient is converted to [int]. *)
Definition secondOrderTempComp (temp dTemp : Z) : Z :=
  let temp := s32 temp in
  let dTemp := s32 dTemp in
  if temp <? 2000 then
    s32 (u64 (s32 (3 * power dTemp 2)) / u64 (Z.shiftl 1 32))
  else
    s32 (u64 (s32 (5 * power dTemp 2)) / u64 (Z.shiftl 1 38)).

(** [static int64_t calcPressOffsetAtTemp(int32_t dTemp, u_int16_t pressOffset,
    u_int16_t tempCoeffOfPressOffset)]: [pressOffset * (1U << 17)] is an
    [unsigned int] product, [tempCoeffOfPressOffset * dTemp] an [int]
    product converted to [unsigned int] by the division by [1U << 6];
    the [unsigned int] sum is then widened to [int64_t]. *)
Definition calcPressOffsetAtTemp (dTemp pressOffset tempCoeffOfPressOffset : Z) : Z :=
  let dTemp := s32 dTemp in
  let pressOffset := u16 pressOffset in
  let tempCoeffOfPressOffset := u16 tempCoeffOfPressOffset in
  let pressOffsetAtTemp :=
    s64 (u32 (u32 (pressOffset * u32 (Z.shiftl 1 17))
              + u32 (s32 (tempCoeffOfPressOffset * dTemp)) / u32 (Z.shiftl 1 6))) in
  pressOffsetAtTemp.

(** [int64_t] is [long] where [long] has 64 bits and [long long]
    otherwise; [unsigned long] has the rank of [long]. *)
Definition int64_is_long (abi : ABI) : bool := ulong_bits abi =? 64.

(** [static int64_t calcSensAtTemp(int32_t dTemp, u_int16_t pressSens,
    u_int16_t tempCoeffOfPressSens)]: [pressSens * (1UL << 16)] is an
    [unsigned long] product, [tempCoeffOfPressSens * dTemp] an [int]
    product converted to [unsigned int] by the division by [1U << 7];
    the [unsigned long] sum is converted to [int64_t]. *)
Definition calcSensAtTemp (abi : ABI) (dTemp pressSens tempCoeffOfPressSens : Z) : Z :=
  let dTemp := s32 dTemp in
  let pressSens := u16 pressSens in
  let tempCoeffOfPressSens := u16 tempCoeffOfPressSens in
  let sensAtTemp :=
    s64 (ulong abi (ulong abi (pressSens * ulong abi (Z.shiftl 1 16))
                    + u32 (s32 (tempCoeffOfPressSens * dTemp)) / u32 (Z.shiftl 1 7))) in
  sensAtTemp.

(** [static int32_t calcPressure(u_int32_t rawPressure, int64_t sensAtTemp,
    int64_t pressOffsetAtTemp)]: [rawPressure * sensAtTemp] is a signed
    64-bit product.  Where [int64_t] is [long], the division by
    [1UL << 21] converts it to [unsigned long] and the rest of the
    expression is unsigned; where [int64_t] is [long long] and
    [unsigned long] has 32 bits, [1UL << 21] and [1UL << 15] are
    converted to [long long] and the expression is signed.  The result
    is converted to [int32_t]. *)
Definition calcPressure (abi : ABI) (rawPressure sensAtTemp pressOffsetAtTemp : Z) : Z :=
  let rawPressure := u32 rawPressure in
  let sensAtTemp := s64 sensAtTemp in
  let pressOffsetAtTemp := s64 pressOffsetAtTemp in
  let pressure :=
    if int64_is_long abi then
      s32 (u64 (u64 (u64 (s64 (rawPressure * sensAtTemp)) / u64 (Z.shiftl 1 21))
                - u64 pressOffsetAtTemp)
           / u64 (Z.shiftl 1 15))
    else
      s32 (Z.quot (s64 (Z.quot (s64 (rawPressure * sensAtTemp)) (s64 (Z.shiftl 1 21))
                        - pressOffsetAtTemp))
                  (s64 (Z.shiftl 1 15))) in
  pressure.

(** ** The bus and the program monad *)

(** What the program does to the outside world, in order. *)
Inductive event : Type :=
| EvGpioInitialise
| EvOpen (bus addr flags : Z)
| EvWrite (handle byte : Z)
| EvRead (handle count : Z)
| EvSleep (seconds : Z)
| EvPerror (msg : string).

(** The pigpio calls the program makes.  Each takes the state of the
    device and the bus and answers with a return code (and, for a read,
    the bytes it delivered) and the next state. *)
Class Transport (D : Type) : Type := {
  gpioInitialise_dev : D -> Z * D;
  i2cOpen_dev : Z -> Z -> Z -> D -> Z * D;
  i2cWriteByte_dev : Z -> Z -> D -> Z * D;
  i2cReadDevice_dev : Z -> Z -> D -> Z * list Z * D
}.

Record world (D : Type) : Type := mkWorld {
  device : D;
  trace : list event
}.
Arguments mkWorld {D} _ _.
Arguments device {D} _.
Arguments trace {D} _.

(** A call returns to its caller, or the process ends in [exit], or the
    bound on loop iterations of the model was too small. *)
Inductive outcome (A : Type) : Type :=
| Returns (a : A)
| Exits (status : Z)
| OutOfFuel.
Arguments Returns {A} _.
Arguments Exits {A} _.
Arguments OutOfFuel {A}.

Definition M (D A : Type) : Type := world D -> outcome A * world D.

#[global] Instance M_ret {D} : MRet (M D) := fun A a w => (Returns a, w).

#[global] Instance M_bind {D} : MBind (M D) := fun A B f m w =>
  match m w with
  | (Returns a, w') => f a w'
  | (Exits status, w') => (Exits status, w')
  | (OutOfFuel, w') => (OutOfFuel, w')
  end.

Definition log {D} (e : event) : M D unit :=
  fun w => (Returns tt, mkWorld (device w) (trace w ++ [e])).

Definition perror {D} (msg : string) : M D unit := log (EvPerror msg).
Definition sleep {D} (seconds : Z) : M D unit := log (EvSleep seconds).
Definition exit {D A} (status : Z) : M D A := fun w => (Exits status, w).

(** [for (i = start; cond(i); i = next(i)) body], the loop state [St]
    holding the variables the body assigns. *)
Fixpoint for_loop {D St} (fuel : nat) (cond : Z -> bool) (next : Z -> Z)
    (body : Z -> St -> M D St) (i : Z) (st : St) : M D St :=
  match fuel with
  | O => fun w => (OutOfFuel, w)
  | S fuel' =>
      if cond i then st' ← body i st; for_loop fuel' cond next body (next i) st'
      else mret st
  end.

(** [i2cReadDevice] stores what the device delivered, at most [count]
    bytes, at the start of [buf]; the rest of [buf] keeps its contents. *)
Definition store_bytes (buf data : list Z) (count : Z) : list Z :=
  let got := map u8 (take (Z.to_nat count) data) in
  take (length buf) (got ++ drop (length got) buf).

Section Program.

Context {D : Type} `{Transport D}.
Variable abi : ABI.

Definition gpioInitialise : M D Z := fun w =>
  let '(rc, d) := gpioInitialise_dev (device w) in
  (Returns rc, mkWorld d (trace w ++ [EvGpioInitialise])).

Definition i2cOpen (i2cBus i2cAddr i2cFlags : Z) : M D Z := fun w =>
  let '(rc, d) := i2cOpen_dev i2cBus i2cAddr i2cFlags (device w) in
  (Returns rc, mkWorld d (trace w ++ [EvOpen i2cBus i2cAddr i2cFlags])).

Definition i2cWriteByte (handle bVal : Z) : M D Z := fun w =>
  let '(rc, d) := i2cWriteByte_dev handle bVal (device w) in
  (Returns rc, mkWorld d (trace w ++ [EvWrite handle bVal])).

Definition i2cReadDevice (handle : Z) (buf : list Z) (count : Z) : M D (Z * list Z) := fun w =>
  let '(rc, data, d) := i2cReadDevice_dev handle count (device w) in
  (Returns (rc, store_bytes buf data count), mkWorld d (trace w ++ [EvRead handle count])).

(** [buf[i]] promoted to [int]. *)
Definition bufc (buf : list Z) (i : nat) : Z := char_val abi (aget buf i).

(** [int initGPIO(int i2cBus, int i2cAddr)] *)
Definition initGPIO (i2cBus i2cAddr : Z) : M D Z :=
  rc ← gpioInitialise;
  (if rc <? 0 then perror "Initialisation failed\n";; exit EXIT_FAILURE else mret tt);;
  fd ← i2cOpen i2cBus i2cAddr 0;
  (if fd <? 0 then perror "Device failed to  open\n";; exit EXIT_FAILURE else mret tt);;
  rc ← i2cWriteByte fd CMD_RESET;
  (if negb (rc =? 0) then perror "Error sending reset---\n" else mret tt);;
  mret fd.

(** Line 75: [proms[(i - PROM_START) / 2] = (buf[0] << 8) | (buf[1])]. *)
Definition prom_word (buf : list Z) : Z :=
  u16 (Z.lor (s32 (Z.shiftl (bufc buf 0) 8)) (bufc buf 1)).

(** The body of the loop of [getCalibData]; the loop assigns [buf]
    and [proms]. *)
Definition getCalibData_body (fd : Z) (bytesToRead : Z) (i : Z)
    (st : list Z * list Z) : M D (list Z * list Z) :=
  let '(buf, proms) := st in
  rc ← i2cWriteByte fd i;
  (if negb (rc =? 0) then perror "Error writing PROM command!!\n";; exit EXIT_FAILURE
   else mret tt);;
  '(rc, buf) ← i2cReadDevice fd buf bytesToRead;
  (if rc <=? 0 then perror "Error reading from PROM\n";; exit EXIT_FAILURE
   else mret tt);;
  mret (buf, <[Z.to_nat (Z.quot (s32 (i - PROM_START)) 2) := prom_word buf]> proms).

(** [static int getCalibData(int fd, u_int16_t *proms)]; the result is
    the return value and the array [proms] points to.  The counter
    grows by 2 from [PROM_START], so [PROM_STOP - PROM_START]
    iterations are more than the loop can make. *)
Definition getCalibData (fd : Z) (proms : list Z) : M D (Z * list Z) :=
  let bytesToRead := 2 in
  let buf := [0; 0] in
  '(buf, proms) ← for_loop (Z.to_nat (PROM_STOP - PROM_START))
                    (fun i => i <? PROM_STOP) (fun i => s32 (i + 2))
                    (getCalibData_body fd bytesToRead) PROM_START (buf, proms);
  mret (0, proms).

(** Line 120: [rawTemp = (buf[0] << 16) | (buf[1] << 8) | (buf[2])]. *)
Definition rawTemp_word (buf : list Z) : Z :=
  s32 (Z.lor (Z.lor (s32 (Z.shiftl (bufc buf 0) 16)) (s32 (Z.shiftl (bufc buf 1) 8)))
             (bufc buf 2)).

(** [static u_int32_t getRawTemp(int fd)] *)
Definition getRawTemp (fd : Z) : M D Z :=
  let bytesToRead := 3 in
  let buf := [0; 0; 0] in
  rc ← i2cWriteByte fd CONVERT_D2_OSR8192;
  (if negb (rc =? 0) then perror "Error writing PROM command\n";; exit EXIT_FAILURE
   else mret tt);;
  sleep 1;;
  rc ← i2cWriteByte fd ADC_READ;
  (if negb (rc =? 0) then perror "Error writing PROM command\n";; exit EXIT_FAILURE
   else mret tt);;
  '(rc, buf) ← i2cReadDevice fd buf bytesToRead;
  (if rc <=? 0 then perror "Error reading from device\n";; exit EXIT_FAILURE
   else mret tt);;
  sleep 1;;
  let rawTemp := rawTemp_word buf in
  mret (u32 rawTemp).

(** [int getTemp(int fd)].  [proms0] is the indeterminate initial
    content of the local array [u_int16_t proms[8]]. *)
Definition getTemp (proms0 : list Z) (fd : Z) : M D Z :=
  let proms := proms0 in
  rawTemp ← getRawTemp fd;
  '(_, proms) ← getCalibData fd proms;
  let temp := calcTemp abi rawTemp proms in
  mret temp.

(** Line 201: [rawPressure = (buf[0] << 16) | (buf[1] << 8) | (buf[0])]. *)
Definition rawPressure_word (buf : list Z) : Z :=
  u32 (Z.lor (Z.lor (s32 (Z.shiftl (bufc buf 0) 16)) (s32 (Z.shiftl (bufc buf 1) 8)))
             (bufc buf 0)).

(** [static u_int32_t getRawPressure(int fd)] *)
Definition getRawPressure (fd : Z) : M D Z :=
  let buf := [0; 0; 0] in
  let bytesToRead := 3 in
  rc ← i2cWriteByte fd CONVERT_D1_OSR8192;
  (if negb (rc =? 0) then perror "Unable to write to device\n";; exit EXIT_FAILURE
   else mret tt);;
  sleep 1;;
  rc ← i2cWriteByte fd ADC_READ;
  (if negb (rc =? 0) then perror "Unable to write to device\n";; exit EXIT_FAILURE
   else mret tt);;
  '(rc, buf) ← i2cReadDevice fd buf 3;
  (if rc <=? 3 then perror "Unable to read from device\n";; exit EXIT_FAILURE
   else mret tt);;
  sleep 1;;
  let rawPressure := rawPressure_word buf in
  mret rawPressure.

(** The source has no caller of its own.  A cycle is the one
    composition its signatures allow: [initGPIO] resets the device and
    yields the handle [getTemp] needs. *)
Definition acquisition_cycle (proms0 : list Z) (i2cBus i2cAddr : Z) : M D Z :=
  fd ← initGPIO i2cBus i2cAddr;
  getTemp proms0 fd.

End Program.

(** ** Two concrete buses *)

(** A bus that never fails: every write is acknowledged, every read
    delivers the next queued bytes, or zeros once the queue is empty,
    and returns the count asked for (1 if that is not positive). *)
Record steady : Type := mkSteady { queued : list (list Z) }.

#[global] Instance steady_transport : Transport steady := {
  gpioInitialise_dev d := (0, d);
  i2cOpen_dev _ _ _ d := (0, d);
  i2cWriteByte_dev _ _ d := (0, d);
  i2cReadDevice_dev _ count d :=
    match queued d with
    | [] => (Z.max 1 count, repeat 0 (Z.to_nat count), d)
    | data :: rest => (Z.max 1 count, data, mkSteady rest)
    end
}.

(** A bus that answers each call with the next scripted reply: a return
    code, and for a read the bytes delivered.  With the script used up,
    every call fails with -1. *)
Record scripted : Type := mkScripted { replies : list (Z * list Z) }.

Definition next_reply (d : scripted) : Z * list Z * scripted :=
  match replies d with
  | [] => (-1, [], d)
  | (rc, data) :: rest => (rc, data, mkScripted rest)
  end.

#[global] Instance scripted_transport : Transport scripted := {
  gpioInitialise_dev d := let '(rc, _, d') := next_reply d in (rc, d');
  i2cOpen_dev _ _ _ d := let '(rc, _, d') := next_reply d in (rc, d');
  i2cWriteByte_dev _ _ d := let '(rc, _, d') := next_reply d in (rc, d');
  i2cReadDevice_dev _ _ d := next_reply d
}.

Definition boot {D} (d : D) : world D := mkWorld d [].

(** A steady bus holding the scenario: the three bytes of the conversion,
    then the seven PROM words, the last two being 29024 and 24926. *)
Definition scenario_bus (b0 b1 b2 : Z) : steady :=
  mkSteady [[b0; b1; b2]; [0; 0]; [0; 0]; [0; 0]; [0; 0]; [0; 0];
            [0x71; 0x60]; [0x61; 0x5E]].

(** ** The formulas of the specification *)

(** The specification's [temperature]:
    [2000 + temperatureDifference * tempCoeffOfTemperature / 2^23] with
    [temperatureDifference = rawTemp - referenceTemp * 2^8], in exact
    integers, the division truncating toward zero. *)
Definition temperature_formula (rawTemp referenceTemp tempCoeffOfTemperature : Z) : Z :=
  2000 + Z.quot ((rawTemp - referenceTemp * 2 ^ 8) * tempCoeffOfTemperature) (2 ^ 23).

(** The specification's [secondOrderTemperatureCorrection], in exact
    integers. *)
Definition secondOrderTemperatureCorrection_formula (temp dTemp : Z) : Z :=
  if temp <? 2000 then Z.quot (3 * dTemp ^ 2) (2 ^ 32)
  else Z.quot (5 * dTemp ^ 2) (2 ^ 38).

(** The specification's [pressureOffsetAtTemperature], in exact integers
    (every value it takes on 16-bit constants and a 32-bit [dTemp] fits
    64 bits). *)
Definition pressureOffsetAtTemperature_formula
    (dTemp pressOffset tempCoeffOfPressOffset : Z) : Z :=
  pressOffset * 2 ^ 17 + Z.quot (tempCoeffOfPressOffset * dTemp) (2 ^ 6).

(** The calibration array of the scenarios: [proms[5]] is the reference
    temperature, [proms[6]] the temperature coefficient. *)
Definition scenario_proms : list Z := [0; 0; 0; 0; 0; 29024; 24926; 0].

(** ** Loops and traces *)

(** The counter values a [for] loop goes through, when the iteration
    bound of the model allows the loop to finish. *)
Fixpoint loop_counters (fuel : nat) (cond : Z -> bool) (next : Z -> Z) (i : Z)
    : option (list Z) :=
  match fuel with
  | O => None
  | S fuel' =>
      if cond i then option_map (cons i) (loop_counters fuel' cond next (next i))
      else Some []
  end.

(** The loop body run once for each counter value of a list. *)
Fixpoint fold_body {D St} (body : Z -> St -> M D St) (counters : list Z) (st : St)
    : M D St :=
  match counters with
  | [] => mret st
  | i :: rest => st' ← body i st; fold_body body rest st'
  end.

(** The PROM addresses [getCalibData] goes through: seven, from
    [PROM_START] to the last even address below [PROM_STOP]. *)
Definition prom_addresses : list Z := [0xA0; 0xA2; 0xA4; 0xA6; 0xA8; 0xAA; 0xAC].

(** One write of an address followed by one read of [count] bytes. *)
Definition transaction (fd count address : Z) : list event :=
  [EvWrite fd address; EvRead fd count].

(** The bytes written to the bus, in order. *)
Definition bus_writes (tr : list event) : list Z :=
  flat_map (fun e => match e with EvWrite _ b => [b] | _ => [] end) tr.

(** The values of a byte. *)
Definition byte_values : list Z := map Z.of_nat (seq 0 256).

(** ** What a bus answers *)

Section Bus.

Context {D : Type} `{Transport D}.
Variable abi : ABI.

Definition init_rc (d : D) : Z := (gpioInitialise_dev d).1.
Definition init_next (d : D) : D := (gpioInitialise_dev d).2.
Definition open_rc (bus addr flags : Z) (d : D) : Z := (i2cOpen_dev bus addr flags d).1.
Definition open_next (bus addr flags : Z) (d : D) : D := (i2cOpen_dev bus addr flags d).2.
Definition write_rc (fd b : Z) (d : D) : Z := (i2cWriteByte_dev fd b d).1.
Definition write_next (fd b : Z) (d : D) : D := (i2cWriteByte_dev fd b d).2.
Definition read_rc (fd n : Z) (d : D) : Z := (i2cReadDevice_dev fd n d).1.1.
Definition read_data (fd n : Z) (d : D) : list Z := (i2cReadDevice_dev fd n d).1.2.
Definition read_next (fd n : Z) (d : D) : D := (i2cReadDevice_dev fd n d).2.

(** A bus on which no call reports an error: initialisation and open
    return non-negative values, every write returns 0, every read a
    positive count, which may be smaller than the count asked for. *)
Record bus_ok : Prop := {
  init_ok : forall d, 0 <= init_rc d;
  open_ok : forall bus addr flags d, 0 <= open_rc bus addr flags d;
  write_ok : forall fd b d, write_rc fd b d = 0;
  read_ok : forall fd n d, 0 < read_rc fd n d
}.

Definition prom_slot (i : Z) : nat := Z.to_nat (Z.quot (s32 (i - PROM_START)) 2).

(** What the loop leaves after the given addresses: the array stores
    it made, the buffer, and the state of the device. *)
Fixpoint calib_walk (fd : Z) (addrs : list Z) (buf : list Z) (d : D)
    : list (nat * Z) * list Z * D :=
  match addrs with
  | [] => ([], buf, d)
  | i :: rest =>
      let d1 := write_next fd i d in
      let buf' := store_bytes buf (read_data fd 2 d1) 2 in
      let r := calib_walk fd rest buf' (read_next fd 2 d1) in
      ((prom_slot i, prom_word abi buf') :: r.1.1, r.1.2, r.2)
  end.

Definition apply_stores (stores : list (nat * Z)) (proms : list Z) : list Z :=
  fold_left (fun a s => <[s.1 := s.2]> a) stores proms.

(** Trigger, wait, ADC read command, read of three bytes, wait. *)
Definition conversion (fd command : Z) : list event :=
  [EvWrite fd command; EvSleep 1; EvWrite fd ADC_READ; EvRead fd 3; EvSleep 1].

(** The device when the three bytes are read. *)
Definition at_read (fd command : Z) (d : D) : D :=
  write_next fd ADC_READ (write_next fd command d).

(** The buffer and the device after the first [k] transactions of the
    calibration read.  Transaction [k], counted from 0, writes the
    address [PROM_START + 2 * k] and reads two bytes into the buffer. *)
Fixpoint calib_state (fd : Z) (k : nat) (d : D) : list Z * D :=
  match k with
  | O => ([0; 0], d)
  | S k' =>
      let '(buf, dk) := calib_state fd k' d in
      let d1 := write_next fd (PROM_START + 2 * Z.of_nat k') dk in
      (store_bytes buf (read_data fd 2 d1) 2, read_next fd 2 d1)
  end.

End Bus.

(** ** Conversions between the integer types *)

(** Every conversion differs from its argument by a multiple of the modulus. *)
Lemma s32_cong (x : Z) : exists k, s32 x = x + k * 2 ^ 32.
Proof.
  unfold s32, wrap_s. exists (- ((x + 2 ^ (32 - 1)) / 2 ^ 32)).
  pose proof (Z.div_mod (x + 2 ^ (32 - 1)) (2 ^ 32) ltac:(lia)). lia.
Qed.

Lemma u32_s32 (x : Z) : u32 (s32 x) = u32 x.
Proof.
  destruct (s32_cong x) as [k ->]. unfold u32, wrap_u.
  apply Z.mod_add. lia.
Qed.

Lemma s32_range (x : Z) : INT_MIN <= s32 x <= INT_MAX.
Proof.
  unfold s32, wrap_s, INT_MIN, INT_MAX.
  pose proof (Z.mod_pos_bound (x + 2 ^ (32 - 1)) (2 ^ 32) ltac:(lia)). lia.
Qed.

Lemma s32_small (x : Z) : INT_MIN <= x <= INT_MAX -> s32 x = x.
Proof.
  unfold s32, wrap_s, INT_MIN, INT_MAX. intros H.
  rewrite Z.mod_small; lia.
Qed.

Lemma u32_range (x : Z) : 0 <= u32 x < 2 ^ 32.
Proof. unfold u32, wrap_u. apply Z.mod_pos_bound. lia. Qed.

Lemma u32_small (x : Z) : 0 <= x < 2 ^ 32 -> u32 x = x.
Proof. unfold u32, wrap_u. apply Z.mod_small. Qed.



Lemma s32_shift (x k : Z) : s32 (x + k * 2 ^ 32) = s32 x.
Proof.
  unfold s32, wrap_s.
  replace (x + k * 2 ^ 32 + 2 ^ (32 - 1)) with (x + 2 ^ (32 - 1) + k * 2 ^ 32) by lia.
  rewrite Z.mod_add by lia. reflexivity.
Qed.

Lemma s32_mul_r (a b : Z) : s32 (a * s32 b) = s32 (a * b).
Proof.
  destruct (s32_cong b) as [k ->].
  replace (a * (b + k * 2 ^ 32)) with (a * b + (a * k) * 2 ^ 32) by lia.
  apply s32_shift.
Qed.

Lemma u64_small (x : Z) : 0 <= x < 2 ^ 64 -> u64 x = x.
Proof. unfold u64, wrap_u. apply Z.mod_small. Qed.

Lemma u64_neg (x : Z) : - 2 ^ 64 <= x < 0 -> u64 x = x + 2 ^ 64.
Proof.
  intros Hx. unfold u64, wrap_u.
  replace x with (x + 2 ^ 64 + (-1) * 2 ^ 64) at 1 by lia.
  rewrite Z.mod_add by lia. apply Z.mod_small. lia.
Qed.

Lemma s64_small (x : Z) : - 2 ^ 63 <= x < 2 ^ 63 -> s64 x = x.
Proof.
  intros Hx. unfold s64, wrap_s.
  change (2 ^ (64 - 1)) with (2 ^ 63). rewrite Z.mod_small; lia.
Qed.

(** An [int] divided by [1ULL << k], for [k] at least 31: zero when the
    [int] is not negative, else [2^(64-k) - 1]. *)
Lemma int_div_ull (y k : Z) :
  31 <= k < 64 ->
  u64 (s32 y) / 2 ^ k = if s32 y <? 0 then 2 ^ (64 - k) - 1 else 0.
Proof.
  intros Hk. pose proof (s32_range y) as Hr. unfold INT_MIN, INT_MAX in Hr.
  assert (Hbig : 2 ^ 31 <= 2 ^ k) by (apply Z.pow_le_mono_r; lia).
  destruct (Z.ltb_spec (s32 y) 0) as [Hn | Hp].
  - rewrite u64_neg by lia.
    assert (Hp2 : 2 ^ 64 = 2 ^ (64 - k) * 2 ^ k).
    { rewrite <- Z.pow_add_r by lia. f_equal. lia. }
    symmetry. apply Z.div_unique with (r := s32 y + 2 ^ k).
    + left. lia.
    + rewrite Hp2. ring.
  - rewrite u64_small by lia. apply Z.div_small. lia.
Qed.

Lemma u8_small (b : Z) : 0 <= b < 256 -> u8 b = b.
Proof. unfold u8, wrap_u. apply Z.mod_small. Qed.

(** ** The recursion of [power] *)

Lemma power_eqn (base exp : Z) :
  power base exp =
  if Z.eq_dec (s32 exp) 0 then 1
  else s32 (s32 base * power base (s32 (s32 exp - 1))).
Proof.
  rewrite power_equation_1 at 1.
  destruct (Z.eq_dec (s32 exp) 0); [reflexivity |].
  rewrite power_clause_1_equation_2. reflexivity.
Qed.







Lemma power_2 (base : Z) : power base 2 = s32 (s32 base * s32 (s32 base * 1)).
Proof.
  rewrite (power_eqn base 2). change (s32 2) with 2. cbn [Z.eq_dec].
  change (s32 (2 - 1)) with 1.
  rewrite (power_eqn base 1). change (s32 1) with 1.
  change (s32 (1 - 1)) with 0.
  rewrite (power_eqn base 0). reflexivity.
Qed.

(** ** The compensation functions *)

(** The correction the code computes takes two values on each side of
    the threshold: the wrapped [int] product is below [2^31], so the
    quotient by [2^32] or [2^38] is 0 unless the product wrapped to a
    negative [int]. *)
Lemma secondOrderTempComp_values (temp dTemp : Z) :
  (s32 temp < 2000 ->
   secondOrderTempComp temp dTemp = 0 \/ secondOrderTempComp temp dTemp = -1) /\
  (2000 <= s32 temp ->
   secondOrderTempComp temp dTemp = 0 \/ secondOrderTempComp temp dTemp = 67108863).
Proof.
  unfold secondOrderTempComp.
  change (u64 (Z.shiftl 1 32)) with (2 ^ 32).
  change (u64 (Z.shiftl 1 38)) with (2 ^ 38).
  rewrite !int_div_ull by lia.
  split; intros Ht.
  - apply Z.ltb_lt in Ht. rewrite Ht.
    destruct (s32 (3 * power (s32 dTemp) 2) <? 0); [right | left]; reflexivity.
  - apply Z.ltb_ge in Ht. rewrite Ht.
    destruct (s32 (5 * power (s32 dTemp) 2) <? 0); [right | left]; reflexivity.
Qed.

(** The value [calcPressOffsetAtTemp] returns is an [unsigned int]. *)
Lemma calcPressOffsetAtTemp_range (dTemp pressOffset tempCoeffOfPressOffset : Z) :
  0 <= calcPressOffsetAtTemp dTemp pressOffset tempCoeffOfPressOffset < 2 ^ 32.
Proof.
  unfold calcPressOffsetAtTemp.
  match goal with |- _ <= s64 (u32 ?x) < _ => pose proof (u32_range x) as Hr;
    rewrite (s64_small (u32 x)) by lia end.
  exact Hr.
Qed.

Lemma secondOrderTempComp_at (temp dTemp : Z) :
  secondOrderTempComp temp dTemp =
  if s32 temp <? 2000 then
    s32 (u64 (s32 (3 * s32 (s32 (s32 dTemp) * s32 (s32 (s32 dTemp) * 1)))) / 2 ^ 32)
  else
    s32 (u64 (s32 (5 * s32 (s32 (s32 dTemp) * s32 (s32 (s32 dTemp) * 1)))) / 2 ^ 38).
Proof. unfold secondOrderTempComp. rewrite power_2. reflexivity. Qed.

Lemma u16_small (x : Z) : 0 <= x < 2 ^ 16 -> u16 x = x.
Proof. unfold u16, wrap_u. apply Z.mod_small. Qed.

(** Where [dTemp] is not negative and [dTemp * proms[6]] fits an [int],
    [calcTemp] computes the formula of the specification. *)
Lemma calcTemp_exact_without_overflow (abi : ABI) (rawTemp : Z) (proms : list Z) :
  32 <= ulong_bits abi ->
  0 <= aget proms 5 < 2 ^ 16 ->
  0 <= aget proms 6 < 2 ^ 16 ->
  0 <= rawTemp < 2 ^ 24 ->
  aget proms 5 * 2 ^ 8 <= rawTemp ->
  (rawTemp - aget proms 5 * 2 ^ 8) * aget proms 6 <= INT_MAX ->
  calcTemp abi rawTemp proms = temperature_formula rawTemp (aget proms 5) (aget proms 6).
Proof.
  unfold INT_MAX. intros HL H5 H6 Hraw Hd Hp.
  assert (HpowL : 2 ^ 32 <= 2 ^ ulong_bits abi) by (apply Z.pow_le_mono_r; lia).
  assert (Hsmall : forall x, 0 <= x < 2 ^ 32 -> ulong abi x = x).
  { intros x Hx. unfold ulong, wrap_u. apply Z.mod_small. lia. }
  unfold calcTemp, calcTempDiff, temperature_formula.
  change (Z.shiftl 1 8) with (2 ^ 8). change (Z.shiftl 1 23) with (2 ^ 23).
  set (r := aget proms 5) in *. set (c := aget proms 6) in *.
  rewrite (s32_small rawTemp) by (unfold INT_MIN, INT_MAX; lia).
  rewrite (u32_small rawTemp), (u16_small r), (u16_small c) by lia.
  rewrite (u32_small (r * 2 ^ 8)) by lia.
  rewrite (u32_small (rawTemp - r * 2 ^ 8)) by lia.
  rewrite (s32_small (rawTemp - r * 2 ^ 8)) by (unfold INT_MIN, INT_MAX; lia).
  set (p := (rawTemp - r * 2 ^ 8) * c) in *.
  assert (Hp0 : 0 <= p) by (unfold p; nia).
  rewrite (s32_small p) by (unfold INT_MIN, INT_MAX; lia).
  rewrite (Hsmall 2000), (Hsmall p), (Hsmall (2 ^ 23)) by lia.
  assert (Hq : 0 <= p / 2 ^ 23 < 256).
  { split; [apply Z.div_pos; lia | apply Z.div_lt_upper_bound; lia]. }
  rewrite Hsmall by lia.
  rewrite s32_small by (unfold INT_MIN, INT_MAX; lia).
  rewrite Z.quot_div_nonneg by lia. reflexivity.
Qed.

(** On that range [calcTemp] does not decrease when [rawTemp] grows. *)
Lemma calcTemp_monotone_without_overflow (abi : ABI) (rawTemp1 rawTemp2 : Z)
    (proms : list Z) :
  32 <= ulong_bits abi ->
  0 <= aget proms 5 < 2 ^ 16 ->
  0 <= aget proms 6 < 2 ^ 16 ->
  aget proms 5 * 2 ^ 8 <= rawTemp1 ->
  rawTemp1 <= rawTemp2 < 2 ^ 24 ->
  (rawTemp2 - aget proms 5 * 2 ^ 8) * aget proms 6 <= INT_MAX ->
  calcTemp abi rawTemp1 proms <= calcTemp abi rawTemp2 proms.
Proof.
  intros HL H5 H6 Hd Hr Hp.
  rewrite !calcTemp_exact_without_overflow; try lia.
  - unfold temperature_formula. apply Z.add_le_mono_l.
    apply Z.quot_le_mono; [lia | nia].
  - unfold INT_MAX in *. nia.
Qed.

(** ** Assembling bytes *)

Lemma lor_shiftl_add (a b k : Z) :
  0 <= k -> 0 <= b < 2 ^ k -> Z.lor (Z.shiftl a k) b = a * 2 ^ k + b.
Proof.
  intros Hk Hb.
  assert (Hland : Z.land (Z.shiftl a k) b = 0).
  { apply Z.bits_inj'. intros n Hn.
    rewrite Z.land_spec, Z.bits_0.
    destruct (Z_lt_le_dec n k) as [Hlt | Hge].
    - rewrite Z.shiftl_spec_low by lia. reflexivity.
    - rewrite <- (Z.mod_small b (2 ^ k)) by lia.
      rewrite Z.mod_pow2_bits_high by lia. apply andb_false_r. }
  rewrite <- Z.lxor_lor by exact Hland.
  rewrite <- Z.add_nocarry_lxor by exact Hland.
  rewrite Z.shiftl_mul_pow2 by lia. reflexivity.
Qed.

(** With plain [char] unsigned, line 120 concatenates the three bytes of
    the buffer, most significant first, into a value below [2^24]. *)
Lemma rawTemp_word_big_endian (abi : ABI) (b0 b1 b2 : Z) :
  char_is_signed abi = false ->
  0 <= b0 < 256 -> 0 <= b1 < 256 -> 0 <= b2 < 256 ->
  rawTemp_word abi [b0; b1; b2] = Z.lor (Z.lor (Z.shiftl b0 16) (Z.shiftl b1 8)) b2 /\
  rawTemp_word abi [b0; b1; b2] = b0 * 65536 + b1 * 256 + b2 /\
  0 <= rawTemp_word abi [b0; b1; b2] < 2 ^ 24.
Proof.
  intros Hc H0 H1 H2. unfold rawTemp_word, bufc, char_val, aget. rewrite Hc. cbn [lookup list_lookup].
  rewrite !u8_small by assumption.
  assert (Hs0 : s32 (Z.shiftl b0 16) = Z.shiftl b0 16).
  { apply s32_small. unfold INT_MIN, INT_MAX. rewrite Z.shiftl_mul_pow2 by lia. lia. }
  assert (Hs1 : s32 (Z.shiftl b1 8) = Z.shiftl b1 8).
  { apply s32_small. unfold INT_MIN, INT_MAX. rewrite Z.shiftl_mul_pow2 by lia. lia. }
  rewrite Hs0, Hs1.
  assert (Hv : Z.lor (Z.lor (Z.shiftl b0 16) (Z.shiftl b1 8)) b2 = b0 * 65536 + b1 * 256 + b2).
  { replace 16 with (8 + 8) by lia. rewrite <- Z.shiftl_shiftl by lia.
    rewrite <- Z.shiftl_lor.
    rewrite (lor_shiftl_add b0 b1 8) by lia.
    rewrite lor_shiftl_add by lia. lia. }
  rewrite Hv. rewrite s32_small by (unfold INT_MIN, INT_MAX; lia).
  repeat split; lia.
Qed.

(** ** Running the program on a bus *)

Lemma for_loop_counters {D St} (cond : Z -> bool) (next : Z -> Z)
    (body : Z -> St -> M D St) (fuel : nat) :
  forall (i : Z) (st : St) (counters : list Z) (w : world D),
    loop_counters fuel cond next i = Some counters ->
    for_loop fuel cond next body i st w = fold_body body counters st w.
Proof.
  induction fuel as [| fuel IH]; intros i st counters w Hc; cbn in Hc.
  - discriminate.
  - cbn [for_loop]. destruct (cond i).
    + destruct (loop_counters fuel cond next (next i)) as [rest |] eqn:Hrest;
        [| discriminate].
      injection Hc as <-. cbn [fold_body]. unfold mbind, M_bind.
      destruct (body i st w) as [[st' | status |] w']; try reflexivity.
      apply IH. exact Hrest.
    + injection Hc as <-. reflexivity.
Qed.

Lemma bind_run {D A B} (m : M D A) (f : A -> M D B) (w w' : world D) (a : A) :
  m w = (Returns a, w') -> (m ≫= f) w = f a w'.
Proof. intros Hm. unfold mbind, M_bind. rewrite Hm. reflexivity. Qed.

Lemma ret_run {D A} (a : A) (w : world D) : (mret a : M D A) w = (Returns a, w).
Proof. reflexivity. Qed.

Lemma getCalibData_counters :
  loop_counters (Z.to_nat (PROM_STOP - PROM_START))
    (fun i => i <? PROM_STOP) (fun i => s32 (i + 2)) PROM_START
  = Some prom_addresses.
Proof. vm_compute. reflexivity. Qed.

Section Runs.

Context {D : Type} `{Transport D}.
Variable abi : ABI.

Lemma gpioInitialise_run (w : world D) :
  gpioInitialise w =
  (Returns (init_rc (device w)),
   mkWorld (init_next (device w)) (trace w ++ [EvGpioInitialise])).
Proof.
  unfold gpioInitialise, init_rc, init_next.
  destruct (gpioInitialise_dev (device w)) as [rc d]. reflexivity.
Qed.

Lemma i2cOpen_run (bus addr flags : Z) (w : world D) :
  i2cOpen bus addr flags w =
  (Returns (open_rc bus addr flags (device w)),
   mkWorld (open_next bus addr flags (device w)) (trace w ++ [EvOpen bus addr flags])).
Proof.
  unfold i2cOpen, open_rc, open_next.
  destruct (i2cOpen_dev bus addr flags (device w)) as [rc d]. reflexivity.
Qed.

Lemma i2cWriteByte_run (fd b : Z) (w : world D) :
  i2cWriteByte fd b w =
  (Returns (write_rc fd b (device w)),
   mkWorld (write_next fd b (device w)) (trace w ++ [EvWrite fd b])).
Proof.
  unfold i2cWriteByte, write_rc, write_next.
  destruct (i2cWriteByte_dev fd b (device w)) as [rc d]. reflexivity.
Qed.

Lemma i2cReadDevice_run (fd : Z) (buf : list Z) (n : Z) (w : world D) :
  i2cReadDevice fd buf n w =
  (Returns (read_rc fd n (device w), store_bytes buf (read_data fd n (device w)) n),
   mkWorld (read_next fd n (device w)) (trace w ++ [EvRead fd n])).
Proof.
  unfold i2cReadDevice, read_rc, read_data, read_next.
  destruct (i2cReadDevice_dev fd n (device w)) as [[rc data] d]. reflexivity.
Qed.

Lemma sleep_run (seconds : Z) (w : world D) :
  sleep seconds w = (Returns tt, mkWorld (device w) (trace w ++ [EvSleep seconds])).
Proof. reflexivity. Qed.

(** One step of a run: the next call of the sequence is replaced by
    its result. *)
Ltac bus_step :=
  first
    [ rewrite (bind_run _ _ _ _ _ (ret_run tt _))
    | rewrite (bind_run _ _ _ _ _ (sleep_run _ _))
    | rewrite (bind_run _ _ _ _ _ (i2cWriteByte_run _ _ _))
    | rewrite (bind_run _ _ _ _ _ (i2cReadDevice_run _ _ _ _))
    | rewrite (bind_run _ _ _ _ _ (gpioInitialise_run _))
    | rewrite (bind_run _ _ _ _ _ (i2cOpen_run _ _ _ _)) ];
  cbn [device trace].

(** A write that returned 0 passes its test. *)
Ltac write_passes Hw := rewrite Hw; cbn [Z.eqb negb]; bus_step.

(** A conversion up to its read: two acknowledged writes and a wait. *)
Ltac conversion_prefix Hw1 Hw2 :=
  bus_step; write_passes Hw1; bus_step; bus_step; write_passes Hw2; bus_step.

(** *** One iteration of the calibration loop *)

Lemma getCalibData_body_run (fd i : Z) (buf proms : list Z) (w : world D) :
  write_rc fd i (device w) = 0 ->
  0 < read_rc fd 2 (write_next fd i (device w)) ->
  getCalibData_body abi fd 2 i (buf, proms) w =
  (Returns (store_bytes buf (read_data fd 2 (write_next fd i (device w))) 2,
            <[prom_slot i :=
                prom_word abi
                  (store_bytes buf (read_data fd 2 (write_next fd i (device w))) 2)]> proms),
   mkWorld (read_next fd 2 (write_next fd i (device w)))
           (trace w ++ transaction fd 2 i)).
Proof.
  intros Hw Hr. unfold getCalibData_body.
  bus_step. write_passes Hw. bus_step.
  apply Z.leb_gt in Hr. rewrite Hr. bus_step.
  unfold mret, M_ret, transaction, prom_slot. rewrite <- app_assoc. reflexivity.
Qed.

Lemma getCalibData_body_read_fails (fd i : Z) (buf proms : list Z) (w : world D) :
  write_rc fd i (device w) = 0 ->
  read_rc fd 2 (write_next fd i (device w)) <= 0 ->
  fst (getCalibData_body abi fd 2 i (buf, proms) w) = Exits EXIT_FAILURE.
Proof.
  intros Hw Hr. unfold getCalibData_body.
  bus_step. write_passes Hw. bus_step.
  apply Z.leb_le in Hr. rewrite Hr. reflexivity.
Qed.

(** *** The calibration loop on a bus that reports no error *)

Lemma calib_fold (Hok : bus_ok) (fd : Z) (addrs : list Z) :
  forall (buf proms : list Z) (w : world D),
    fold_body (getCalibData_body abi fd 2) addrs (buf, proms) w =
    (Returns ((calib_walk abi fd addrs buf (device w)).1.2,
              apply_stores (calib_walk abi fd addrs buf (device w)).1.1 proms),
     mkWorld (calib_walk abi fd addrs buf (device w)).2
             (trace w ++ flat_map (transaction fd 2) addrs)).
Proof.
  induction addrs as [| i rest IH]; intros buf proms w.
  - cbn. rewrite app_nil_r. destruct w. reflexivity.
  - cbn [fold_body].
    rewrite (bind_run _ _ _ _ _
               (getCalibData_body_run fd i buf proms w
                  (write_ok Hok _ _ _) (read_ok Hok _ _ _))).
    rewrite IH. cbn [device trace calib_walk fst snd flat_map apply_stores fold_left].
    rewrite <- app_assoc. reflexivity.
Qed.

Lemma getCalibData_run (Hok : bus_ok) (fd : Z) (proms : list Z) (w : world D) :
  getCalibData abi fd proms w =
  (Returns (0, apply_stores (calib_walk abi fd prom_addresses [0; 0] (device w)).1.1 proms),
   mkWorld (calib_walk abi fd prom_addresses [0; 0] (device w)).2
           (trace w ++ flat_map (transaction fd 2) prom_addresses)).
Proof.
  unfold getCalibData.
  rewrite (bind_run _ _ _ _ _
             (eq_trans (for_loop_counters _ _ _ _ _ _ _ _ getCalibData_counters)
                       (calib_fold Hok fd prom_addresses [0; 0] proms w))).
  reflexivity.
Qed.

Lemma calib_stores_slots (fd : Z) (d : D) :
  map fst (calib_walk abi fd prom_addresses [0; 0] d).1.1 = [0; 1; 2; 3; 4; 5; 6]%nat.
Proof. reflexivity. Qed.

(** Stores into the slots 0 to 6, in that order, replace the first
    seven elements of an array of eight. *)
Lemma apply_stores_seven (stores : list (nat * Z)) (proms : list Z) :
  map fst stores = [0; 1; 2; 3; 4; 5; 6]%nat ->
  length proms = 8%nat ->
  apply_stores stores proms = map snd stores ++ drop 7 proms.
Proof.
  intros Hs Hl.
  do 8 (destruct proms as [| ? proms]; [discriminate |]).
  destruct proms; [| discriminate].
  do 7 (destruct stores as [| [? ?] stores]; [discriminate |]).
  destruct stores; [| discriminate].
  cbn in Hs. injection Hs as -> -> -> -> -> -> ->. reflexivity.
Qed.

(** *** A conversion and its read-out *)

Lemma getRawTemp_run (fd : Z) (w : world D) :
  write_rc fd CONVERT_D2_OSR8192 (device w) = 0 ->
  write_rc fd ADC_READ (write_next fd CONVERT_D2_OSR8192 (device w)) = 0 ->
  0 < read_rc fd 3 (at_read fd CONVERT_D2_OSR8192 (device w)) ->
  getRawTemp abi fd w =
  (Returns (u32 (rawTemp_word abi
              (store_bytes [0; 0; 0]
                 (read_data fd 3 (at_read fd CONVERT_D2_OSR8192 (device w))) 3))),
   mkWorld (read_next fd 3 (at_read fd CONVERT_D2_OSR8192 (device w)))
           (trace w ++ conversion fd CONVERT_D2_OSR8192)).
Proof.
  intros Hw1 Hw2 Hr. unfold getRawTemp, at_read in *.
  conversion_prefix Hw1 Hw2.
  apply Z.leb_gt in Hr. rewrite Hr. bus_step. bus_step.
  unfold mret, M_ret, conversion. rewrite <- !app_assoc. reflexivity.
Qed.


(** [getRawPressure] leaves through [exit] whenever the read returns at
    most 3. *)
Lemma getRawPressure_read_fails (fd : Z) (w : world D) :
  write_rc fd CONVERT_D1_OSR8192 (device w) = 0 ->
  write_rc fd ADC_READ (write_next fd CONVERT_D1_OSR8192 (device w)) = 0 ->
  read_rc fd 3 (at_read fd CONVERT_D1_OSR8192 (device w)) <= 3 ->
  fst (getRawPressure abi fd w) = Exits EXIT_FAILURE.
Proof.
  intros Hw1 Hw2 Hr. unfold getRawPressure, at_read in *.
  conversion_prefix Hw1 Hw2.
  apply Z.leb_le in Hr. rewrite Hr. reflexivity.
Qed.


(** *** The whole cycle *)

Lemma initGPIO_run (Hok : bus_ok) (bus addr : Z) (w : world D) :
  let d1 := init_next (device w) in
  let fd := open_rc bus addr 0 d1 in
  initGPIO bus addr w =
  (Returns fd,
   mkWorld (write_next fd CMD_RESET (open_next bus addr 0 d1))
           (trace w ++ [EvGpioInitialise; EvOpen bus addr 0; EvWrite fd CMD_RESET])).
Proof.
  cbv zeta. unfold initGPIO.
  pose proof (init_ok Hok (device w)) as Hi. apply Z.ltb_ge in Hi.
  pose proof (open_ok Hok bus addr 0 (init_next (device w))) as Ho.
  apply Z.ltb_ge in Ho.
  bus_step. rewrite Hi. bus_step.
  bus_step. rewrite Ho. bus_step.
  bus_step. write_passes (write_ok Hok).
  unfold mret, M_ret. rewrite <- !app_assoc. reflexivity.
Qed.

Lemma getTemp_run (Hok : bus_ok) (proms0 : list Z) (fd : Z) (w : world D) :
  let d := read_next fd 3 (at_read fd CONVERT_D2_OSR8192 (device w)) in
  let rawTemp :=
    u32 (rawTemp_word abi
           (store_bytes [0; 0; 0]
              (read_data fd 3 (at_read fd CONVERT_D2_OSR8192 (device w))) 3)) in
  let proms := apply_stores (calib_walk abi fd prom_addresses [0; 0] d).1.1 proms0 in
  getTemp abi proms0 fd w =
  (Returns (calcTemp abi rawTemp proms),
   mkWorld (calib_walk abi fd prom_addresses [0; 0] d).2
           (trace w ++ conversion fd CONVERT_D2_OSR8192
                    ++ flat_map (transaction fd 2) prom_addresses)).
Proof.
  cbv zeta. unfold getTemp.
  rewrite (bind_run _ _ _ _ _
             (getRawTemp_run fd w (write_ok Hok _ _ _) (write_ok Hok _ _ _)
                (read_ok Hok _ _ _))).
  rewrite (bind_run _ _ _ _ _ (getCalibData_run Hok fd proms0 _)).
  cbn [device trace]. unfold mret, M_ret. rewrite <- app_assoc. reflexivity.
Qed.

End Runs.

(** With plain [char] unsigned, line 75 joins the two bytes of the
    buffer, high byte first. *)
Lemma prom_word_value (abi : ABI) (b0 b1 : Z) :
  char_is_signed abi = false ->
  0 <= b0 < 256 -> 0 <= b1 < 256 ->
  prom_word abi [b0; b1] = b0 * 256 + b1 /\
  0 <= prom_word abi [b0; b1] < 2 ^ 16.
Proof.
  intros Hc H0 H1. unfold prom_word, bufc, char_val, aget. rewrite Hc.
  cbn [lookup list_lookup]. rewrite !u8_small by assumption.
  rewrite (s32_small (Z.shiftl b0 8))
    by (unfold INT_MIN, INT_MAX; rewrite Z.shiftl_mul_pow2 by lia; lia).
  rewrite lor_shiftl_add by lia. change (2 ^ 8) with 256.
  rewrite u16_small by lia. lia.
Qed.

Lemma store_bytes_length (buf data : list Z) (count : Z) :
  length (store_bytes buf data count) = length buf.
Proof.
  unfold store_bytes. rewrite length_take, length_app, length_drop. lia.
Qed.

(** A read that delivers the two bytes asked for replaces the buffer. *)
Lemma store_bytes_two (buf : list Z) (hi lo : Z) :
  length buf = 2%nat -> 0 <= hi < 256 -> 0 <= lo < 256 ->
  store_bytes buf [hi; lo] 2 = [hi; lo].
Proof.
  intros Hl Hhi Hlo.
  destruct buf as [| a [| b [| c rest]]]; try discriminate.
  unfold store_bytes. change (Z.to_nat 2) with 2%nat.
  cbn [take map length app drop].
  rewrite (u8_small hi Hhi), (u8_small lo Hlo). reflexivity.
Qed.

Lemma calib_state_length {D : Type} `{Transport D} (fd : Z) (k : nat) (d : D) :
  length (calib_state fd k d).1 = 2%nat.
Proof.
  induction k as [| k IH]; [reflexivity |].
  cbn [calib_state]. destruct (calib_state fd k d) as [buf dk]. cbn [fst] in *.
  rewrite store_bytes_length. exact IH.
Qed.

(** The words the calibration loop stores, one for each transaction. *)
Lemma calib_walk_words {D : Type} `{Transport D} (abi : ABI) (fd : Z) (d : D) (k : nat) :
  (k < 7)%nat ->
  map snd (calib_walk abi fd prom_addresses [0; 0] d).1.1 !! k
  = Some (prom_word abi (calib_state fd (S k) d).1).
Proof.
  intros Hk.
  destruct k as [| [| [| [| [| [| [| k]]]]]]]; try lia; reflexivity.
Qed.

Lemma calib_walk_device {D : Type} `{Transport D} (abi : ABI) (fd : Z) (d : D) :
  (calib_walk abi fd prom_addresses [0; 0] d).2 = (calib_state fd 7 d).2.
Proof. reflexivity. Qed.

Lemma steady_ok : bus_ok (D := steady).
Proof.
  constructor; intros; unfold init_rc, open_rc, write_rc, read_rc; cbn;
    try (destruct (queued d); cbn); lia.
Qed.

(** ** Claims about the arithmetic *)

(** C6 (defect).  The specification asks that the temperature never
    decrease when [rawTemp] grows, for a positive temperature coefficient.
    [calcTemp] forms [dTemp * proms[6]] as an [int]: with reference
    temperature 29024 and coefficient 24926 the product leaves 32 bits
    above [rawTemp = 7516298], and the larger raw value 8535040 yields
    the lower temperature, 2211 against 2255, on both Raspberry Pi ABIs.
    The division by the unsigned [1UL << 23] also breaks the order where
    [dTemp] changes sign: with coefficient 1, one step below the
    reference gives 2511 with a 32-bit [unsigned long], the reference
    itself 2000. *)
Theorem calcTemp_overflow_breaks_monotonicity :
  7516298 <= 8535040 /\ 8535040 < 2 ^ 24 /\
  calcTemp armhf 7516298 scenario_proms = 2255 /\
  calcTemp armhf 8535040 scenario_proms = 2211 /\
  calcTemp aarch64 7516298 scenario_proms = 2255 /\
  calcTemp aarch64 8535040 scenario_proms = 2211 /\
  temperature_formula 7516298 29024 24926 = 2255 /\
  temperature_formula 8535040 29024 24926 = 5283 /\
  calcTemp armhf 7430143 [0; 0; 0; 0; 0; 29024; 1; 0] = 2511 /\
  calcTemp armhf 7430144 [0; 0; 0; 0; 0; 29024; 1; 0] = 2000.
Proof. repeat split; try lia; vm_compute; reflexivity. Qed.

(** C7 (defect).  The specification gives the correction as
    [3 * dTemp^2 / 2^32] below 20.00 degrees and [5 * dTemp^2 / 2^38]
    from 20.00 degrees.  [secondOrderTempComp] takes the branch as
    specified (the divisor at [temp = 2000] is [2^38]) but squares and
    scales [dTemp] in [int]: the square of 65536 wraps to 0, and the
    function returns 0 or -1 below the threshold, 0 or 67108863 from it
    on, whatever the formula gives. *)
Theorem secondOrderTempComp_loses_square :
  secondOrderTempComp 1000 65536 = 0 /\
  secondOrderTemperatureCorrection_formula 1000 65536 = 3 /\
  secondOrderTempComp 1500 (-1000000) = 0 /\
  secondOrderTemperatureCorrection_formula 1500 (-1000000) = 698 /\
  secondOrderTempComp 1999 46341 = -1 /\
  secondOrderTempComp 2000 46341 = 67108863 /\
  secondOrderTemperatureCorrection_formula 2000 46341 = 0.
Proof.
  rewrite !secondOrderTempComp_at.
  repeat split; vm_compute; reflexivity.
Qed.

(** C9 (defect).  The specification asks for
    [pressOffset * 2^17 + tempCoeffOfPressOffset * dTemp / 2^6] in 64-bit
    arithmetic.  [calcPressOffsetAtTemp] returns [int64_t] but evaluates
    the whole expression in 32-bit [unsigned int]: with
    [pressOffset = 32768] the first product wraps to 0, and with typical
    calibration words the result is the formula's value reduced modulo
    [2^32]. *)
Theorem calcPressOffsetAtTemp_wraps_at_32_bits :
  calcPressOffsetAtTemp 0 32768 0 = 0 /\
  pressureOffsetAtTemperature_formula 0 32768 0 = 4294967296 /\
  calcPressOffsetAtTemp 2366 36924 23317 = 545597232 /\
  pressureOffsetAtTemperature_formula 2366 36924 23317 = 4840564528 /\
  calcPressOffsetAtTemp (-1) 0 1 = 67108863 /\
  pressureOffsetAtTemperature_formula (-1) 0 1 = 0.
Proof. repeat split; vm_compute; reflexivity. Qed.



(** C4 (defect).  The specification assembles every raw sample as
    [b0<<16 | b1<<8 | b2].  [getRawTemp] does so; line 201 of
    [getRawPressure] puts [buf[0]] where [buf[2]] belongs, and the test
    [<= 3] before it sends every read of at most three bytes to [exit]:
    for the bytes 12 34 56 (hex) the expression is 123412, and the
    function does not return. *)
Theorem getRawPressure_repeats_first_byte :
  rawPressure_word armhf [0x12; 0x34; 0x56] = 0x123412 /\
  rawTemp_word armhf [0x12; 0x34; 0x56] = 0x123456 /\
  fst (getRawPressure armhf 0
         (boot (mkScripted [(0, []); (0, []); (3, [0x12; 0x34; 0x56])])))
    = Exits EXIT_FAILURE /\
  fst (getRawTemp armhf 0
         (boot (mkScripted [(0, []); (0, []); (3, [0x12; 0x34; 0x56])])))
    = Returns 0x123456.
Proof. repeat split; vm_compute; reflexivity. Qed.

(** C1 (defect).  For the raw bytes 82 3C 00 (hex), reference
    temperature 29024 and coefficient 24926 the specification expects
    53.13 degrees.  The bytes assemble to 8535040 and [dTemp] is
    1104896, for which the formula gives 5283 (the figures 8540160,
    1111936 and 5313 of the scenario are slips of its arithmetic);
    [getTemp], on a bus holding the scenario, returns 2211 on both
    Raspberry Pi ABIs, because [calcTemp] forms [dTemp * proms[6]] as an
    [int].  From the [rawTemp] 8540160 [calcTemp] returns 2226, the
    formula 5298. *)
Lemma temperature_scenario_differs :
  u32 (rawTemp_word armhf [0x82; 0x3C; 0x00]) = 8535040 /\
  8535040 <> 8540160 /\
  calcTempDiff 8535040 29024 = 1104896 /\
  1104896 <> 1111936 /\
  temperature_formula 8535040 29024 24926 = 5283 /\
  fst (getTemp armhf (repeat 0 8) 0 (boot (scenario_bus 0x82 0x3C 0x00))) = Returns 2211 /\
  fst (getTemp aarch64 (repeat 0 8) 0 (boot (scenario_bus 0x82 0x3C 0x00))) = Returns 2211 /\
  calcTempDiff 8540160 29024 = 1110016 /\
  temperature_formula 8540160 29024 24926 = 5298 /\
  calcTemp armhf 8540160 scenario_proms = 2226.
Proof. repeat split; try lia; vm_compute; reflexivity. Qed.

(** ** Claims about the bus transactions *)

(** C2 (amended).  With the bounds 0xA0 and 0xAE, on a bus that reports
    no error, [getCalibData] returns 0 after exactly seven transactions,
    each the write of an address followed by a read of two bytes, at the
    addresses 0xA0, 0xA2, ..., 0xAC in this order; it stores seven words,
    in [proms[0]] to [proms[6]], and leaves [proms[7]] as it was.  The
    word in [proms[k]] is made of the buffer as the read of transaction
    [k], at address [0xA0 + 2 * k], left it: high byte times 256 plus
    low byte when that read delivers two bytes and plain [char] is
    unsigned.  The six addresses 0xA2 to 0xAC fill [proms[1]] to
    [proms[6]]. *)
Theorem getCalibData_reads_seven_words {D : Type} `{Transport D}
    (abi : ABI) (fd : Z) (w : world D) :
  bus_ok ->
  exists (words : list Z) (w' : world D),
    length words = 7%nat /\
    map prom_slot [0xA0; 0xA2; 0xA4; 0xA6; 0xA8; 0xAA; 0xAC] = [0; 1; 2; 3; 4; 5; 6]%nat /\
    trace w' = trace w ++ flat_map (transaction fd 2) [0xA0; 0xA2; 0xA4; 0xA6; 0xA8; 0xAA; 0xAC] /\
    device w' = (calib_state fd 7 (device w)).2 /\
    (forall k : nat,
       (k < 7)%nat ->
       words !! k = Some (prom_word abi (calib_state fd (S k) (device w)).1)) /\
    (forall (k : nat) (hi lo : Z),
       (k < 7)%nat ->
       char_is_signed abi = false ->
       read_data fd 2 (write_next fd (0xA0 + 2 * Z.of_nat k)
                         (calib_state fd k (device w)).2) = [hi; lo] ->
       0 <= hi < 256 -> 0 <= lo < 256 ->
       words !! k = Some (hi * 256 + lo)) /\
    forall proms : list Z,
      length proms = 8%nat ->
      getCalibData abi fd proms w = (Returns (0, words ++ drop 7 proms), w').
Proof.
  intros Hok.
  exists (map snd (calib_walk abi fd prom_addresses [0; 0] (device w)).1.1).
  exists (mkWorld (calib_walk abi fd prom_addresses [0; 0] (device w)).2
            (trace w ++ flat_map (transaction fd 2) prom_addresses)).
  split; [| split; [| split; [| split; [| split; [| split]]]]].
  - rewrite length_map, <- (length_map fst), calib_stores_slots. reflexivity.
  - reflexivity.
  - reflexivity.
  - apply calib_walk_device.
  - intros k Hk. apply calib_walk_words. exact Hk.
  - intros k hi lo Hk Hc Hdata Hhi Hlo.
    rewrite (calib_walk_words abi fd (device w) k Hk).
    pose proof (calib_state_length fd k (device w)) as Hlen.
    cbn [calib_state]. change PROM_START with 0xA0.
    destruct (calib_state fd k (device w)) as [buf dk]. cbn [fst snd] in *.
    rewrite Hdata, (store_bytes_two buf hi lo Hlen Hhi Hlo).
    rewrite (proj1 (prom_word_value abi hi lo Hc Hhi Hlo)). reflexivity.
  - intros proms Hl. rewrite (getCalibData_run abi Hok).
    rewrite (apply_stores_seven _ _ (calib_stores_slots abi fd _) Hl). reflexivity.
Qed.

Lemma getCalibData_reads_seven_words_witness :
  bus_ok (D := steady) /\
  exists (words : list Z) (w' : world steady),
    length words = 7%nat /\
    words !! 5%nat = Some 29024 /\
    words !! 6%nat = Some 24926 /\
    trace w' = flat_map (transaction 0 2) [0xA0; 0xA2; 0xA4; 0xA6; 0xA8; 0xAA; 0xAC] /\
    getCalibData armhf 0 (repeat 0 8)
      (boot (mkSteady [[0; 0]; [0; 1]; [0; 2]; [0; 3]; [0; 4]; [0x71; 0x60]; [0x61; 0x5E]]))
    = (Returns (0, words ++ drop 7 (repeat 0 8)), w').
Proof.
  split; [exact steady_ok |].
  destruct (getCalibData_reads_seven_words armhf 0
              (boot (mkSteady [[0; 0]; [0; 1]; [0; 2]; [0; 3]; [0; 4];
                               [0x71; 0x60]; [0x61; 0x5E]])) steady_ok)
    as (words & w' & Hlen & _ & Htrace & _ & _ & Hbytes & Hrun).
  exists words, w'. split; [exact Hlen |].
  split; [exact (Hbytes 5%nat 0x71 0x60 ltac:(lia) eq_refl eq_refl ltac:(lia) ltac:(lia)) |].
  split; [exact (Hbytes 6%nat 0x61 0x5E ltac:(lia) eq_refl eq_refl ltac:(lia) ltac:(lia)) |].
  split; [exact Htrace |].
  exact (Hrun (repeat 0 8) eq_refl).
Defined.

(** C2, the claim as written fails: on a bus delivering the words 1 to
    7, [getCalibData] makes seven transactions, fourteen bus calls, the
    first at address 0xA0, and stores seven words. *)
Lemma calibration_read_makes_seven_transactions :
  let bus := mkSteady [[0; 1]; [0; 2]; [0; 3]; [0; 4]; [0; 5]; [0; 6]; [0; 7]] in
  let run := getCalibData armhf 0 (repeat 0xFFFF 8) (boot bus) in
  fst run = Returns (0, [1; 2; 3; 4; 5; 6; 7; 0xFFFF]) /\
  trace (snd run) =
    [EvWrite 0 0xA0; EvRead 0 2; EvWrite 0 0xA2; EvRead 0 2; EvWrite 0 0xA4; EvRead 0 2;
     EvWrite 0 0xA6; EvRead 0 2; EvWrite 0 0xA8; EvRead 0 2; EvWrite 0 0xAA; EvRead 0 2;
     EvWrite 0 0xAC; EvRead 0 2] /\
  length (trace (snd run)) = 14%nat /\
  length (trace (snd run)) <> (2 * 6)%nat.
Proof. repeat split; try (vm_compute; reflexivity). vm_compute. discriminate. Qed.

(** C8 (amended).  On a bus that reports no error, one cycle makes its
    bus calls in this order: initialisation, open and the reset command
    ([initGPIO]); then the temperature conversion trigger, a wait, the
    ADC read command, the read of three bytes and a wait ([getRawTemp]);
    then the seven calibration transactions ([getCalibData]).  The
    calibration words are read after the raw temperature. *)
Theorem acquisition_cycle_order {D : Type} `{Transport D}
    (abi : ABI) (proms0 : list Z) (bus addr : Z) (w : world D) :
  bus_ok ->
  exists (fd temp : Z) (w' : world D),
    acquisition_cycle abi proms0 bus addr w = (Returns temp, w') /\
    trace w' =
      trace w
      ++ [EvGpioInitialise; EvOpen bus addr 0; EvWrite fd CMD_RESET]
      ++ [EvWrite fd CONVERT_D2_OSR8192; EvSleep 1; EvWrite fd ADC_READ; EvRead fd 3;
          EvSleep 1]
      ++ flat_map (transaction fd 2) [0xA0; 0xA2; 0xA4; 0xA6; 0xA8; 0xAA; 0xAC].
Proof.
  intros Hok. unfold acquisition_cycle.
  pose proof (initGPIO_run Hok bus addr w) as Hi. cbv zeta in Hi.
  rewrite (bind_run _ _ _ _ _ Hi).
  pose proof (getTemp_run abi Hok proms0
                (open_rc bus addr 0 (init_next (device w)))
                (mkWorld (write_next (open_rc bus addr 0 (init_next (device w))) CMD_RESET
                            (open_next bus addr 0 (init_next (device w))))
                         (trace w ++ [EvGpioInitialise; EvOpen bus addr 0;
                                      EvWrite (open_rc bus addr 0 (init_next (device w)))
                                        CMD_RESET]))) as Hg.
  cbv zeta in Hg. rewrite Hg.
  eexists _, _, _. split; [reflexivity |].
  cbn [trace]. rewrite <- !app_assoc. reflexivity.
Qed.

Lemma acquisition_cycle_order_witness :
  bus_ok (D := steady) /\
  exists (fd temp : Z) (w' : world steady),
    acquisition_cycle armhf (repeat 0 8) 1 0x77 (boot (scenario_bus 0x82 0x3C 0x00))
    = (Returns temp, w') /\
    trace w' =
      trace (boot (scenario_bus 0x82 0x3C 0x00))
      ++ [EvGpioInitialise; EvOpen 1 0x77 0; EvWrite fd CMD_RESET]
      ++ [EvWrite fd CONVERT_D2_OSR8192; EvSleep 1; EvWrite fd ADC_READ; EvRead fd 3;
          EvSleep 1]
      ++ flat_map (transaction fd 2) [0xA0; 0xA2; 0xA4; 0xA6; 0xA8; 0xAA; 0xAC].
Proof.
  split; [exact steady_ok |].
  exact (acquisition_cycle_order armhf (repeat 0 8) 1 0x77
           (boot (scenario_bus 0x82 0x3C 0x00)) steady_ok).
Defined.

(** C8, the claim as written fails: the order it gives is reset, the
    calibration addresses, then the trigger and the ADC read command; the
    cycle writes the trigger and the ADC read command before the first
    calibration address. *)
Lemma acquisition_cycle_reads_calibration_last :
  let run := acquisition_cycle armhf (repeat 0 8) 1 0x77
               (boot (scenario_bus 0x82 0x3C 0x00)) in
  fst run = Returns 2211 /\
  bus_writes (trace (snd run)) =
    [CMD_RESET; CONVERT_D2_OSR8192; ADC_READ; 0xA0; 0xA2; 0xA4; 0xA6; 0xA8; 0xAA; 0xAC] /\
  bus_writes (trace (snd run)) <>
    [CMD_RESET; 0xA0; 0xA2; 0xA4; 0xA6; 0xA8; 0xAA; 0xAC; CONVERT_D2_OSR8192; ADC_READ].
Proof. repeat split; try (vm_compute; reflexivity). vm_compute. discriminate. Qed.

(** C3 (amended).  On a bus that reports no error, [getTemp] returns
    what [calcTemp] computes from the raw temperature [getRawTemp] read
    and the calibration words [getCalibData] read after it: the
    first-order value [2000 + dTemp * proms[6] / 2^23] as the code
    evaluates it.  [secondOrderTempComp] is not called and nothing is
    subtracted. *)
Theorem getTemp_returns_uncorrected_temperature {D : Type} `{Transport D}
    (abi : ABI) (proms0 : list Z) (fd : Z) (w : world D) :
  bus_ok ->
  exists (rawTemp : Z) (w1 : world D) (proms : list Z) (w2 : world D),
    getRawTemp abi fd w = (Returns rawTemp, w1) /\
    getCalibData abi fd proms0 w1 = (Returns (0, proms), w2) /\
    getTemp abi proms0 fd w = (Returns (calcTemp abi rawTemp proms), w2) /\
    calcTemp abi rawTemp proms =
      s32 (ulong abi
             (ulong abi 2000
              + ulong abi (s32 (calcTempDiff (s32 rawTemp) (aget proms 5)
                                * u16 (aget proms 6)))
                / ulong abi (Z.shiftl 1 23))).
Proof.
  intros Hok.
  pose proof (getRawTemp_run abi fd w (write_ok Hok _ _ _) (write_ok Hok _ _ _)
                (read_ok Hok _ _ _)) as Hraw.
  pose proof (getTemp_run abi Hok proms0 fd w) as Hg. cbv zeta in Hg.
  eexists _, _, _, _. split; [exact Hraw |]. split; [| split].
  - apply (getCalibData_run abi Hok).
  - rewrite Hg. cbn [device trace]. rewrite <- app_assoc. reflexivity.
  - reflexivity.
Qed.

Lemma getTemp_returns_uncorrected_temperature_witness :
  bus_ok (D := steady) /\
  exists (rawTemp : Z) (w1 : world steady) (proms : list Z) (w2 : world steady),
    getRawTemp armhf 0 (boot (scenario_bus 0x82 0x3D 0x00)) = (Returns rawTemp, w1) /\
    getCalibData armhf 0 (repeat 0 8) w1 = (Returns (0, proms), w2) /\
    getTemp armhf (repeat 0 8) 0 (boot (scenario_bus 0x82 0x3D 0x00))
    = (Returns (calcTemp armhf rawTemp proms), w2) /\
    calcTemp armhf rawTemp proms =
      s32 (ulong armhf
             (ulong armhf 2000
              + ulong armhf (s32 (calcTempDiff (s32 rawTemp) (aget proms 5)
                                  * u16 (aget proms 6)))
                / ulong armhf (Z.shiftl 1 23))).
Proof.
  split; [exact steady_ok |].
  exact (getTemp_returns_uncorrected_temperature armhf (repeat 0 8) 0
           (boot (scenario_bus 0x82 0x3D 0x00)) steady_ok).
Defined.

(** C3, the claim as written fails: for the raw bytes 82 3D 00 (hex),
    reference temperature 29024 and coefficient 24926, [getTemp] returns
    [temp = 2211] with [dTemp = 1105152]; the correction the code would
    compute is 67108863 and the correction of the specification's
    formula is 22, and 2211 is neither [temp] less the one nor [temp]
    less the other. *)
Lemma getTemp_result_is_not_corrected :
  let run := getTemp armhf (repeat 0 8) 0 (boot (scenario_bus 0x82 0x3D 0x00)) in
  fst run = Returns 2211 /\
  calcTemp armhf 0x823D00 scenario_proms = 2211 /\
  calcTempDiff 0x823D00 29024 = 1105152 /\
  secondOrderTempComp 2211 1105152 = 67108863 /\
  secondOrderTemperatureCorrection_formula 2211 1105152 = 22 /\
  fst run <> Returns (2211 - secondOrderTempComp 2211 1105152) /\
  fst run <> Returns (2211 - secondOrderTemperatureCorrection_formula 2211 1105152).
Proof.
  rewrite !secondOrderTempComp_at.
  repeat split; try (vm_compute; reflexivity); vm_compute; discriminate.
Qed.



(** ** Further properties of the compensation functions *)

Lemma ulong_32 (abi : ABI) (x : Z) : ulong_bits abi = 32 -> ulong abi x = u32 x.
Proof. intros HL. unfold ulong. rewrite HL. reflexivity. Qed.

Lemma ulong_64 (abi : ABI) (x : Z) : ulong_bits abi = 64 -> ulong abi x = u64 x.
Proof. intros HL. unfold ulong. rewrite HL. reflexivity. Qed.

(** An [int] converted to a 64-bit unsigned type and divided by [2^k]:
    the floor quotient, shifted by [2^(64-k)] when the [int] is
    negative. *)
Lemma u64_div_pow2 (y k : Z) :
  0 <= k < 64 ->
  u64 (s32 y) / 2 ^ k
  = if s32 y <? 0 then s32 y / 2 ^ k + 2 ^ (64 - k) else s32 y / 2 ^ k.
Proof.
  intros Hk. pose proof (s32_range y) as Hr. unfold INT_MIN, INT_MAX in Hr.
  destruct (Z.ltb_spec (s32 y) 0) as [Hn | Hp].
  - rewrite u64_neg by lia.
    replace (2 ^ 64) with (2 ^ (64 - k) * 2 ^ k)
      by (rewrite <- Z.pow_add_r by lia; f_equal; lia).
    apply Z.div_add. apply Z.pow_nonzero; lia.
  - rewrite u64_small by lia. reflexivity.
Qed.

Lemma calcTempDiff_value (rawTemp refTemp : Z) :
  0 <= rawTemp < 2 ^ 24 ->
  0 <= refTemp < 2 ^ 16 ->
  calcTempDiff rawTemp refTemp = rawTemp - refTemp * 256 /\
  - 2 ^ 24 < calcTempDiff rawTemp refTemp < 2 ^ 24.
Proof.
  intros Hraw Href. unfold calcTempDiff.
  change (Z.shiftl 1 8) with 256.
  rewrite (u32_small rawTemp), (u16_small refTemp) by lia.
  rewrite (u32_small (refTemp * 256)) by lia.
  destruct (s32_cong (u32 (rawTemp - refTemp * 256))) as [k Hk].
  assert (Hv : s32 (u32 (rawTemp - refTemp * 256)) = rawTemp - refTemp * 256).
  { destruct (Z_lt_le_dec (rawTemp - refTemp * 256) 0) as [Hneg | Hpos].
    - replace (rawTemp - refTemp * 256)
        with (rawTemp - refTemp * 256 + 2 ^ 32 + (-1) * 2 ^ 32) at 1 by lia.
      unfold u32, wrap_u. rewrite Z.mod_add by lia.
      rewrite Z.mod_small by lia.
      replace (rawTemp - refTemp * 256 + 2 ^ 32)
        with (rawTemp - refTemp * 256 + 1 * 2 ^ 32) by lia.
      rewrite s32_shift. apply s32_small. unfold INT_MIN, INT_MAX. lia.
    - rewrite u32_small by lia. apply s32_small. unfold INT_MIN, INT_MAX. lia. }
  rewrite Hv. lia.
Qed.

(** X1.  For every 24-bit raw temperature and every 16-bit reference,
    [calcTempDiff] is the exact difference [rawTemp - refTemp * 256],
    also where it is negative: the unsigned subtraction wraps and the
    conversion to [int] undoes the wrap. *)
Theorem calcTempDiff_exact (rawTemp refTemp : Z) :
  0 <= rawTemp < 2 ^ 24 ->
  0 <= refTemp < 2 ^ 16 ->
  calcTempDiff rawTemp refTemp = rawTemp - refTemp * 256 /\
  - 2 ^ 24 < calcTempDiff rawTemp refTemp < 2 ^ 24.
Proof. apply calcTempDiff_value. Qed.

Lemma calcTempDiff_exact_witness :
  calcTempDiff 7000000 29024 = 7000000 - 29024 * 256.
Proof.
  exact (proj1 (calcTempDiff_exact 7000000 29024 ltac:(lia) ltac:(lia))).
Defined.

(** What [calcTemp] computes where [unsigned long] has 32 bits: 2000
    plus the top nine bits of the low 32 bits of the [int] product. *)
Lemma calcTemp_value_32 (abi : ABI) (rawTemp : Z) (proms : list Z) :
  ulong_bits abi = 32 ->
  calcTemp abi rawTemp proms
  = 2000 + u32 (calcTempDiff (s32 rawTemp) (aget proms 5) * u16 (aget proms 6)) / 2 ^ 23.
Proof.
  intros HL. unfold calcTemp. rewrite !(ulong_32 abi) by exact HL.
  change (u32 2000) with 2000. change (u32 (Z.shiftl 1 23)) with (2 ^ 23).
  rewrite u32_s32.
  set (p := calcTempDiff (s32 rawTemp) (aget proms 5) * u16 (aget proms 6)).
  pose proof (u32_range p) as Hp.
  assert (Hq : 0 <= u32 p / 2 ^ 23 < 512).
  { split; [apply Z.div_pos; lia | apply Z.div_lt_upper_bound; lia]. }
  rewrite u32_small by lia. apply s32_small. unfold INT_MIN, INT_MAX. lia.
Qed.

(** What [calcTemp] computes where [unsigned long] has 64 bits: 2000
    plus the floor quotient of the wrapped [int] product by [2^23]. *)
Lemma calcTemp_value_64 (abi : ABI) (rawTemp : Z) (proms : list Z) :
  ulong_bits abi = 64 ->
  calcTemp abi rawTemp proms
  = 2000 + s32 (calcTempDiff (s32 rawTemp) (aget proms 5) * u16 (aget proms 6)) / 2 ^ 23.
Proof.
  intros HL. unfold calcTemp. rewrite !(ulong_64 abi) by exact HL.
  change (u64 2000) with 2000. change (u64 (Z.shiftl 1 23)) with (2 ^ 23).
  set (p := calcTempDiff (s32 rawTemp) (aget proms 5) * u16 (aget proms 6)).
  pose proof (s32_range p) as Hp. unfold INT_MIN, INT_MAX in Hp.
  rewrite u64_div_pow2 by lia.
  assert (Hq : -256 <= s32 p / 2 ^ 23 < 256).
  { split; [apply Z.div_le_lower_bound; lia | apply Z.div_lt_upper_bound; lia]. }
  destruct (Z.ltb_spec (s32 p) 0) as [Hn | Hpos].
  - assert (s32 p / 2 ^ 23 < 0) by (apply Z.div_lt_upper_bound; lia).
    rewrite u64_small by (change (2 ^ (64 - 23)) with (2 ^ 41); lia).
    replace (2000 + (s32 p / 2 ^ 23 + 2 ^ (64 - 23)))
      with (2000 + s32 p / 2 ^ 23 + 512 * 2 ^ 32) by (change (2 ^ (64 - 23)) with (512 * 2 ^ 32); lia).
    rewrite s32_shift. apply s32_small. unfold INT_MIN, INT_MAX. lia.
  - assert (0 <= s32 p / 2 ^ 23) by (apply Z.div_pos; lia).
    rewrite u64_small by lia. apply s32_small. unfold INT_MIN, INT_MAX. lia.
Qed.

(** X2.  Where [unsigned long] has 32 bits (32-bit Raspberry Pi OS),
    [calcTemp] is 2000 plus bits 23 to 31 of [dTemp * proms[6]], whatever
    its arguments: it returns between 2000 and 2511 only. *)
Theorem calcTemp_range_ulong32 (abi : ABI) (rawTemp : Z) (proms : list Z) :
  ulong_bits abi = 32 ->
  calcTemp abi rawTemp proms
  = 2000 + ((calcTempDiff (s32 rawTemp) (aget proms 5) * u16 (aget proms 6)) mod 2 ^ 32)
           / 2 ^ 23
  /\ 2000 <= calcTemp abi rawTemp proms <= 2511.
Proof.
  intros HL. rewrite (calcTemp_value_32 abi rawTemp proms HL).
  set (p := calcTempDiff (s32 rawTemp) (aget proms 5) * u16 (aget proms 6)).
  pose proof (u32_range p) as Hp. split; [reflexivity |].
  assert (Hq : 0 <= u32 p / 2 ^ 23 < 512).
  { split; [apply Z.div_pos; lia | apply Z.div_lt_upper_bound; lia]. }
  lia.
Qed.

Lemma calcTemp_range_ulong32_witness :
  2000 <= calcTemp armhf 3000000 scenario_proms <= 2511.
Proof.
  exact (proj2 (calcTemp_range_ulong32 armhf 3000000 scenario_proms eq_refl)).
Defined.

(** X3.  Where [unsigned long] has 64 bits, [calcTemp] is 2000 plus the
    floor of the wrapped [int] product divided by [2^23], whatever its
    arguments: it returns between 1744 and 2255 only. *)
Theorem calcTemp_range_ulong64 (abi : ABI) (rawTemp : Z) (proms : list Z) :
  ulong_bits abi = 64 ->
  calcTemp abi rawTemp proms
  = 2000 + s32 (calcTempDiff (s32 rawTemp) (aget proms 5) * u16 (aget proms 6)) / 2 ^ 23
  /\ 1744 <= calcTemp abi rawTemp proms <= 2255.
Proof.
  intros HL. rewrite (calcTemp_value_64 abi rawTemp proms HL).
  set (p := calcTempDiff (s32 rawTemp) (aget proms 5) * u16 (aget proms 6)).
  pose proof (s32_range p) as Hp. unfold INT_MIN, INT_MAX in Hp.
  split; [reflexivity |].
  assert (Hq : -256 <= s32 p / 2 ^ 23 < 256).
  { split; [apply Z.div_le_lower_bound; lia | apply Z.div_lt_upper_bound; lia]. }
  lia.
Qed.

Lemma calcTemp_range_ulong64_witness :
  1744 <= calcTemp aarch64 3000000 scenario_proms <= 2255.
Proof.
  exact (proj2 (calcTemp_range_ulong64 aarch64 3000000 scenario_proms eq_refl)).
Defined.

(** X4.  At the reference point, [rawTemp = proms[5] * 256], [calcTemp]
    returns 2000 (20.00 degrees) whatever the temperature coefficient
    [proms[6]] holds. *)
Theorem calcTemp_at_reference (abi : ABI) (proms : list Z) :
  32 <= ulong_bits abi ->
  0 <= aget proms 5 < 2 ^ 16 ->
  calcTemp abi (aget proms 5 * 256) proms = 2000.
Proof.
  intros HL H5.
  assert (HpowL : 2 ^ 32 <= 2 ^ ulong_bits abi) by (apply Z.pow_le_mono_r; lia).
  assert (Hsmall : forall x, 0 <= x < 2 ^ 32 -> ulong abi x = x).
  { intros x Hx. unfold ulong, wrap_u. apply Z.mod_small. lia. }
  unfold calcTemp.
  rewrite (s32_small (aget proms 5 * 256)) by (unfold INT_MIN, INT_MAX; lia).
  destruct (calcTempDiff_value (aget proms 5 * 256) (aget proms 5)) as [Hd _]; try lia.
  rewrite Hd. replace (aget proms 5 * 256 - aget proms 5 * 256) with 0 by lia.
  rewrite Z.mul_0_l. change (s32 0) with 0. change (Z.shiftl 1 23) with (2 ^ 23).
  rewrite (Hsmall 0), (Hsmall 2000), (Hsmall (2 ^ 23)) by lia.
  rewrite Z.div_0_l by lia. rewrite Hsmall by lia. reflexivity.
Qed.

Lemma calcTemp_at_reference_witness :
  calcTemp armhf (aget scenario_proms 5 * 256) scenario_proms = 2000.
Proof.
  apply calcTemp_at_reference; cbn; lia.
Defined.

(** X5.  From the reference point up, as long as [dTemp * proms[6]]
    fits an [int], [calcTemp] is the exact value
    [2000 + (rawTemp - proms[5] * 256) * proms[6] / 2^23]; on this
    range it reports at most 2255 (22.55 degrees). *)
Theorem calcTemp_exact_up_to_overflow (abi : ABI) (rawTemp : Z) (proms : list Z) :
  32 <= ulong_bits abi ->
  0 <= aget proms 5 < 2 ^ 16 ->
  0 <= aget proms 6 < 2 ^ 16 ->
  aget proms 5 * 256 <= rawTemp < 2 ^ 24 ->
  (rawTemp - aget proms 5 * 256) * aget proms 6 <= INT_MAX ->
  calcTemp abi rawTemp proms
  = 2000 + (rawTemp - aget proms 5 * 256) * aget proms 6 / 2 ^ 23 /\
  2000 <= calcTemp abi rawTemp proms <= 2255.
Proof.
  intros HL H5 H6 Hraw Hp.
  rewrite calcTemp_exact_without_overflow; try lia.
  unfold temperature_formula. change (2 ^ 8) with 256.
  set (p := (rawTemp - aget proms 5 * 256) * aget proms 6) in *.
  assert (Hp0 : 0 <= p) by (unfold p; nia).
  rewrite Z.quot_div_nonneg by lia. split; [reflexivity |].
  unfold INT_MAX in Hp.
  assert (Hq : 0 <= p / 2 ^ 23 < 256).
  { split; [apply Z.div_pos; lia | apply Z.div_lt_upper_bound; lia]. }
  lia.
Qed.

Lemma calcTemp_exact_up_to_overflow_witness :
  calcTemp armhf 7516298 scenario_proms
  = 2000 + (7516298 - aget scenario_proms 5 * 256) * aget scenario_proms 6 / 2 ^ 23.
Proof.
  apply (calcTemp_exact_up_to_overflow armhf 7516298 scenario_proms);
    unfold INT_MAX; cbn; lia.
Defined.

(** X6.  On the same range, from the reference point up to the overflow
    of the [int] product, [calcTemp] does not decrease when [rawTemp]
    grows. *)
Theorem calcTemp_monotone_up_to_overflow (abi : ABI) (rawTemp1 rawTemp2 : Z)
    (proms : list Z) :
  32 <= ulong_bits abi ->
  0 <= aget proms 5 < 2 ^ 16 ->
  0 <= aget proms 6 < 2 ^ 16 ->
  aget proms 5 * 256 <= rawTemp1 ->
  rawTemp1 <= rawTemp2 < 2 ^ 24 ->
  (rawTemp2 - aget proms 5 * 256) * aget proms 6 <= INT_MAX ->
  calcTemp abi rawTemp1 proms <= calcTemp abi rawTemp2 proms.
Proof.
  intros HL H5 H6 Hd Hr Hp.
  apply calcTemp_monotone_without_overflow; assumption.
Qed.

Lemma calcTemp_monotone_up_to_overflow_witness :
  calcTemp armhf 7430144 scenario_proms <= calcTemp armhf 7516298 scenario_proms.
Proof.
  apply (calcTemp_monotone_up_to_overflow armhf 7430144 7516298 scenario_proms);
    unfold INT_MAX; cbn; lia.
Defined.

(** X7.  Below the reference point, where [unsigned long] has 32 bits
    and the (negative) product fits an [int], [calcTemp] returns
    [2512 + floor (dTemp * proms[6] / 2^23)]: at least 2256, above
    every value it returns for a temperature from the reference point
    up to the overflow. *)
Theorem calcTemp_below_reference_ulong32 (abi : ABI) (rawTemp : Z) (proms : list Z) :
  ulong_bits abi = 32 ->
  0 <= aget proms 5 < 2 ^ 16 ->
  0 <= aget proms 6 < 2 ^ 16 ->
  0 <= rawTemp < aget proms 5 * 256 ->
  INT_MIN <= (rawTemp - aget proms 5 * 256) * aget proms 6 < 0 ->
  calcTemp abi rawTemp proms
  = 2512 + (rawTemp - aget proms 5 * 256) * aget proms 6 / 2 ^ 23 /\
  2256 <= calcTemp abi rawTemp proms <= 2511.
Proof.
  unfold INT_MIN. intros HL H5 H6 Hraw Hp.
  rewrite (calcTemp_value_32 abi rawTemp proms HL).
  rewrite (s32_small rawTemp) by (unfold INT_MIN, INT_MAX; lia).
  destruct (calcTempDiff_value rawTemp (aget proms 5)) as [Hd _]; try lia.
  rewrite Hd, (u16_small (aget proms 6)) by lia.
  set (p := (rawTemp - aget proms 5 * 256) * aget proms 6) in *.
  assert (Hu : u32 p = p + 1 * 2 ^ 32).
  { unfold u32, wrap_u. rewrite <- (Z.mod_add p 1 (2 ^ 32)) by lia.
    apply Z.mod_small. lia. }
  rewrite Hu. replace (p + 1 * 2 ^ 32) with (p + 512 * 2 ^ 23) by lia.
  rewrite Z.div_add by lia.
  assert (Hq : -256 <= p / 2 ^ 23 < 0).
  { split; [apply Z.div_le_lower_bound; lia | apply Z.div_lt_upper_bound; lia]. }
  lia.
Qed.

Lemma calcTemp_below_reference_ulong32_witness :
  2256 <= calcTemp armhf 7380144 scenario_proms <= 2511.
Proof.
  apply (calcTemp_below_reference_ulong32 armhf 7380144 scenario_proms);
    unfold INT_MIN; cbn; lia.
Defined.

(** X8.  Where [unsigned long] has 64 bits and the product fits an
    [int], [calcTemp] returns
    [2000 + floor ((rawTemp - proms[5] * 256) * proms[6] / 2^23)] on both
    sides of the reference point: below it the quotient is rounded down,
    not toward zero. *)
Theorem calcTemp_floor_ulong64 (abi : ABI) (rawTemp : Z) (proms : list Z) :
  ulong_bits abi = 64 ->
  0 <= aget proms 5 < 2 ^ 16 ->
  0 <= aget proms 6 < 2 ^ 16 ->
  0 <= rawTemp < 2 ^ 24 ->
  INT_MIN <= (rawTemp - aget proms 5 * 256) * aget proms 6 <= INT_MAX ->
  calcTemp abi rawTemp proms
  = 2000 + (rawTemp - aget proms 5 * 256) * aget proms 6 / 2 ^ 23.
Proof.
  intros HL H5 H6 Hraw Hp.
  rewrite (calcTemp_value_64 abi rawTemp proms HL).
  rewrite (s32_small rawTemp) by (unfold INT_MIN, INT_MAX; lia).
  destruct (calcTempDiff_value rawTemp (aget proms 5)) as [Hd _]; try lia.
  rewrite Hd, (u16_small (aget proms 6)) by lia.
  rewrite s32_small by exact Hp. reflexivity.
Qed.

Lemma calcTemp_floor_ulong64_witness :
  calcTemp aarch64 7430143 [0; 0; 0; 0; 0; 29024; 1; 0] = 2000 + -1 / 2 ^ 23 /\
  calcTemp aarch64 7430143 [0; 0; 0; 0; 0; 29024; 1; 0] = 1999.
Proof.
  split.
  - apply (calcTemp_floor_ulong64 aarch64 7430143 [0; 0; 0; 0; 0; 29024; 1; 0]);
      unfold INT_MIN, INT_MAX; cbn; lia.
  - vm_compute. reflexivity.
Defined.

Lemma s32_mul_l (a b : Z) : s32 (s32 a * b) = s32 (a * b).
Proof. rewrite (Z.mul_comm (s32 a)), s32_mul_r, Z.mul_comm. reflexivity. Qed.

Lemma secondOrderTempComp_by_sign (temp dTemp : Z) :
  secondOrderTempComp temp dTemp
  = (if s32 temp <? 2000
     then if s32 (3 * (dTemp * dTemp)) <? 0 then -1 else 0
     else if s32 (5 * (dTemp * dTemp)) <? 0 then 67108863 else 0) /\
  (s32 temp < 2000 -> secondOrderTempComp temp dTemp <= 0).
Proof.
  assert (Hsq : s32 (s32 (s32 dTemp) * s32 (s32 (s32 dTemp) * 1)) = s32 (dTemp * dTemp)).
  { rewrite Z.mul_1_r. rewrite !(s32_small (s32 _)) by apply s32_range.
    rewrite s32_mul_r, s32_mul_l. reflexivity. }
  assert (Hv : secondOrderTempComp temp dTemp
               = if s32 temp <? 2000
                 then if s32 (3 * (dTemp * dTemp)) <? 0 then -1 else 0
                 else if s32 (5 * (dTemp * dTemp)) <? 0 then 67108863 else 0).
  { rewrite secondOrderTempComp_at, Hsq, !s32_mul_r.
    rewrite !int_div_ull by lia.
    destruct (s32 temp <? 2000);
      match goal with |- context [if ?c then _ else _] => destruct c end; reflexivity. }
  split; [exact Hv |].
  intros Ht. rewrite Hv. apply Z.ltb_lt in Ht. rewrite Ht.
  destruct (s32 (3 * (dTemp * dTemp)) <? 0); lia.
Qed.

(** X10.  Where nothing overflows, for [5 * dTemp^2 <= INT_MAX] (that is
    for [dTemp] between -20724 and 20724), [secondOrderTempComp] returns
    0 on both sides of the threshold, which is also the value of
    [3 * dTemp^2 / 2^32] and of [5 * dTemp^2 / 2^38] there. *)
Theorem secondOrderTempComp_zero_without_overflow (temp dTemp : Z) :
  5 * (dTemp * dTemp) <= INT_MAX ->
  secondOrderTempComp temp dTemp = 0 /\
  3 * (dTemp * dTemp) / 2 ^ 32 = 0 /\
  5 * (dTemp * dTemp) / 2 ^ 38 = 0.
Proof.
  unfold INT_MAX. intros Hd.
  assert (Hsq : 0 <= dTemp * dTemp) by nia.
  destruct (secondOrderTempComp_by_sign temp dTemp) as [Hv _]. rewrite Hv.
  rewrite (s32_small (3 * (dTemp * dTemp))) by (unfold INT_MIN, INT_MAX; lia).
  rewrite (s32_small (5 * (dTemp * dTemp))) by (unfold INT_MIN, INT_MAX; lia).
  assert (H3 : (3 * (dTemp * dTemp) <? 0) = false) by (apply Z.ltb_ge; lia).
  assert (H5 : (5 * (dTemp * dTemp) <? 0) = false) by (apply Z.ltb_ge; lia).
  rewrite H3, H5.
  split; [destruct (s32 temp <? 2000); reflexivity |].
  split; apply Z.div_small; lia.
Qed.

Lemma secondOrderTempComp_zero_without_overflow_witness :
  secondOrderTempComp 1500 (-20724) = 0.
Proof.
  apply (secondOrderTempComp_zero_without_overflow 1500 (-20724)).
  unfold INT_MAX. lia.
Defined.

(** X11.  Whatever its arguments, [calcPressOffsetAtTemp] returns a value
    from 0 to [2^32 - 1]: the [int64_t] it returns never holds more than
    the 32 bits of the [unsigned int] sum, and is never negative. *)
Theorem calcPressOffsetAtTemp_is_unsigned_int
    (dTemp pressOffset tempCoeffOfPressOffset : Z) :
  0 <= calcPressOffsetAtTemp dTemp pressOffset tempCoeffOfPressOffset < 2 ^ 32.
Proof. apply calcPressOffsetAtTemp_range. Qed.

(** X12.  For [dTemp >= 0] with [tempCoeffOfPressOffset * dTemp] fitting
    an [int], [calcPressOffsetAtTemp] returns
    [pressOffset * 2^17 + tempCoeffOfPressOffset * dTemp / 2^6] reduced
    modulo [2^32]; it is that value itself exactly when the value is
    below [2^32]. *)
Theorem calcPressOffsetAtTemp_modulo
    (dTemp pressOffset tempCoeffOfPressOffset : Z) :
  0 <= pressOffset < 2 ^ 16 ->
  0 <= tempCoeffOfPressOffset < 2 ^ 16 ->
  0 <= dTemp <= INT_MAX ->
  tempCoeffOfPressOffset * dTemp <= INT_MAX ->
  calcPressOffsetAtTemp dTemp pressOffset tempCoeffOfPressOffset
  = (pressOffset * 2 ^ 17 + tempCoeffOfPressOffset * dTemp / 2 ^ 6) mod 2 ^ 32 /\
  (pressOffset * 2 ^ 17 + tempCoeffOfPressOffset * dTemp / 2 ^ 6 < 2 ^ 32 <->
   calcPressOffsetAtTemp dTemp pressOffset tempCoeffOfPressOffset
   = pressOffset * 2 ^ 17 + tempCoeffOfPressOffset * dTemp / 2 ^ 6).
Proof.
  unfold INT_MAX. intros Hpo Htc Hd Hp.
  assert (Hp0 : 0 <= tempCoeffOfPressOffset * dTemp) by nia.
  assert (Hq : 0 <= tempCoeffOfPressOffset * dTemp / 2 ^ 6)
    by (apply Z.div_pos; lia).
  assert (Hv : calcPressOffsetAtTemp dTemp pressOffset tempCoeffOfPressOffset
               = (pressOffset * 2 ^ 17 + tempCoeffOfPressOffset * dTemp / 2 ^ 6)
                 mod 2 ^ 32).
  { unfold calcPressOffsetAtTemp.
    change (u32 (Z.shiftl 1 17)) with (2 ^ 17). change (u32 (Z.shiftl 1 6)) with (2 ^ 6).
    rewrite (s32_small dTemp) by (unfold INT_MIN, INT_MAX; lia).
    rewrite (u16_small pressOffset), (u16_small tempCoeffOfPressOffset) by lia.
    rewrite (s32_small (tempCoeffOfPressOffset * dTemp))
      by (unfold INT_MIN, INT_MAX; lia).
    rewrite (u32_small (tempCoeffOfPressOffset * dTemp)) by lia.
    match goal with |- s64 (u32 ?x) = _ =>
      pose proof (u32_range x) as Hr; rewrite (s64_small (u32 x)) by lia end.
    unfold u32, wrap_u. apply Z.add_mod_idemp_l. lia. }
  split; [exact Hv |].
  rewrite Hv. split; intros Hlt.
  - apply Z.mod_small. nia.
  - pose proof (Z.mod_pos_bound
                  (pressOffset * 2 ^ 17 + tempCoeffOfPressOffset * dTemp / 2 ^ 6)
                  (2 ^ 32) ltac:(lia)). lia.
Qed.

Lemma calcPressOffsetAtTemp_modulo_witness :
  calcPressOffsetAtTemp 2366 36924 23317
  = (36924 * 2 ^ 17 + 23317 * 2366 / 2 ^ 6) mod 2 ^ 32.
Proof.
  apply (calcPressOffsetAtTemp_modulo 2366 36924 23317); unfold INT_MAX; lia.
Defined.

(** X13.  For [dTemp >= 0] with [tempCoeffOfPressSens * dTemp] fitting an
    [int], [calcSensAtTemp] returns
    [pressSens * 2^16 + tempCoeffOfPressSens * dTemp / 2^7] exactly where
    [unsigned long] has 64 bits, and that value reduced modulo [2^32]
    where it has 32 bits. *)
Theorem calcSensAtTemp_value (abi : ABI) (dTemp pressSens tempCoeffOfPressSens : Z) :
  0 <= pressSens < 2 ^ 16 ->
  0 <= tempCoeffOfPressSens < 2 ^ 16 ->
  0 <= dTemp <= INT_MAX ->
  tempCoeffOfPressSens * dTemp <= INT_MAX ->
  (ulong_bits abi = 64 ->
   calcSensAtTemp abi dTemp pressSens tempCoeffOfPressSens
   = pressSens * 2 ^ 16 + tempCoeffOfPressSens * dTemp / 2 ^ 7) /\
  (ulong_bits abi = 32 ->
   calcSensAtTemp abi dTemp pressSens tempCoeffOfPressSens
   = (pressSens * 2 ^ 16 + tempCoeffOfPressSens * dTemp / 2 ^ 7) mod 2 ^ 32).
Proof.
  unfold INT_MAX. intros Hps Htc Hd Hp.
  assert (Hp0 : 0 <= tempCoeffOfPressSens * dTemp) by nia.
  assert (Hq : 0 <= tempCoeffOfPressSens * dTemp / 2 ^ 7 < 2 ^ 24).
  { split; [apply Z.div_pos; lia | apply Z.div_lt_upper_bound; lia]. }
  unfold calcSensAtTemp.
  change (u32 (Z.shiftl 1 7)) with (2 ^ 7).
  rewrite (s32_small dTemp) by (unfold INT_MIN, INT_MAX; lia).
  rewrite (u16_small pressSens), (u16_small tempCoeffOfPressSens) by lia.
  rewrite (s32_small (tempCoeffOfPressSens * dTemp)) by (unfold INT_MIN, INT_MAX; lia).
  rewrite (u32_small (tempCoeffOfPressSens * dTemp)) by lia.
  split; intros HL.
  - rewrite !(ulong_64 abi) by exact HL. change (u64 (Z.shiftl 1 16)) with (2 ^ 16).
    rewrite (u64_small (pressSens * 2 ^ 16)) by lia.
    rewrite u64_small by lia. apply s64_small. lia.
  - rewrite !(ulong_32 abi) by exact HL. change (u32 (Z.shiftl 1 16)) with (2 ^ 16).
    rewrite (u32_small (pressSens * 2 ^ 16)) by lia.
    match goal with |- s64 (u32 ?x) = _ =>
      pose proof (u32_range x) as Hr; rewrite (s64_small (u32 x)) by lia end.
    reflexivity.
Qed.

Lemma calcSensAtTemp_value_witness :
  calcSensAtTemp aarch64 2366 46372 29059 = 46372 * 2 ^ 16 + 29059 * 2366 / 2 ^ 7.
Proof.
  refine (proj1 (calcSensAtTemp_value aarch64 2366 46372 29059 _ _ _ _) eq_refl);
    unfold INT_MAX; lia.
Defined.

(** Whatever its arguments, [calcSensAtTemp] returns a value from 0 to
    [2^33 - 1] on the two widths of [unsigned long]. *)
Lemma calcSensAtTemp_range (abi : ABI) (dTemp pressSens tempCoeffOfPressSens : Z) :
  ulong_bits abi = 32 \/ ulong_bits abi = 64 ->
  0 <= calcSensAtTemp abi dTemp pressSens tempCoeffOfPressSens < 2 ^ 33.
Proof.
  intros HL. unfold calcSensAtTemp.
  change (u32 (Z.shiftl 1 7)) with (2 ^ 7).
  set (q := u32 (s32 (u16 tempCoeffOfPressSens * s32 dTemp)) / 2 ^ 7).
  assert (Hq : 0 <= q < 2 ^ 25).
  { unfold q. match goal with |- _ <= u32 ?x / _ < _ => pose proof (u32_range x) end.
    split; [apply Z.div_pos; lia | apply Z.div_lt_upper_bound; lia]. }
  assert (Hps : 0 <= u16 pressSens < 2 ^ 16)
    by (unfold u16, wrap_u; apply Z.mod_pos_bound; lia).
  destruct HL as [HL | HL].
  - rewrite !(ulong_32 abi) by exact HL.
    match goal with |- _ <= s64 (u32 ?x) < _ =>
      pose proof (u32_range x) as Hr; rewrite (s64_small (u32 x)) by lia end.
    lia.
  - rewrite !(ulong_64 abi) by exact HL. change (u64 (Z.shiftl 1 16)) with (2 ^ 16).
    rewrite (u64_small (u16 pressSens * 2 ^ 16)) by lia.
    rewrite u64_small by lia. rewrite s64_small by lia. lia.
Qed.

Lemma calcPressure_exact_ulong32_value (abi : ABI)
    (rawPressure sensAtTemp pressOffsetAtTemp : Z) :
  ulong_bits abi = 32 ->
  0 <= rawPressure < 2 ^ 24 ->
  0 <= sensAtTemp < 2 ^ 33 ->
  0 <= pressOffsetAtTemp < 2 ^ 32 ->
  calcPressure abi rawPressure sensAtTemp pressOffsetAtTemp
  = Z.quot (rawPressure * sensAtTemp / 2 ^ 21 - pressOffsetAtTemp) (2 ^ 15).
Proof.
  intros HL Hraw Hs Ho. unfold calcPressure, int64_is_long. rewrite HL.
  change (32 =? 64) with false. cbv iota.
  change (s64 (Z.shiftl 1 21)) with (2 ^ 21). change (s64 (Z.shiftl 1 15)) with (2 ^ 15).
  rewrite (u32_small rawPressure), (s64_small sensAtTemp), (s64_small pressOffsetAtTemp)
    by lia.
  assert (Hprod : 0 <= rawPressure * sensAtTemp < 2 ^ 57) by nia.
  rewrite (s64_small (rawPressure * sensAtTemp)) by lia.
  rewrite (Z.quot_div_nonneg (rawPressure * sensAtTemp)) by lia.
  assert (Hx : 0 <= rawPressure * sensAtTemp / 2 ^ 21 < 2 ^ 36).
  { split; [apply Z.div_pos; lia | apply Z.div_lt_upper_bound; lia]. }
  set (x := rawPressure * sensAtTemp / 2 ^ 21) in *.
  rewrite (s64_small (x - pressOffsetAtTemp)) by lia.
  pose proof (Z.quot_rem' (x - pressOffsetAtTemp) (2 ^ 15)) as Hqr.
  pose proof (Z.rem_bound_abs (x - pressOffsetAtTemp) (2 ^ 15) ltac:(lia)) as Hrem.
  apply s32_small. unfold INT_MIN, INT_MAX. lia.
Qed.

(** X14.  Where [unsigned long] has 32 bits, for a 24-bit raw pressure,
    a sensitivity below [2^33] and an offset below [2^32] (what
    [calcSensAtTemp] and [calcPressOffsetAtTemp] return), no step of
    [calcPressure] overflows: it returns
    [(rawPressure * sensAtTemp / 2^21 - pressOffsetAtTemp) / 2^15] with
    the last division truncating toward zero. *)
Theorem calcPressure_exact_ulong32 (abi : ABI)
    (rawPressure sensAtTemp pressOffsetAtTemp : Z) :
  ulong_bits abi = 32 ->
  0 <= rawPressure < 2 ^ 24 ->
  0 <= sensAtTemp < 2 ^ 33 ->
  0 <= pressOffsetAtTemp < 2 ^ 32 ->
  calcPressure abi rawPressure sensAtTemp pressOffsetAtTemp
  = Z.quot (rawPressure * sensAtTemp / 2 ^ 21 - pressOffsetAtTemp) (2 ^ 15).
Proof. apply calcPressure_exact_ulong32_value. Qed.

Lemma calcPressure_exact_ulong32_witness :
  calcPressure armhf 6465444 3039050829 3000000000
  = Z.quot (6465444 * 3039050829 / 2 ^ 21 - 3000000000) (2 ^ 15).
Proof.
  refine (calcPressure_exact_ulong32 armhf 6465444 3039050829 3000000000 eq_refl _ _ _);
    lia.
Defined.

Lemma calcPressure_floor_ulong64_value (abi : ABI)
    (rawPressure sensAtTemp pressOffsetAtTemp : Z) :
  ulong_bits abi = 64 ->
  0 <= rawPressure < 2 ^ 24 ->
  0 <= sensAtTemp < 2 ^ 33 ->
  0 <= pressOffsetAtTemp < 2 ^ 32 ->
  calcPressure abi rawPressure sensAtTemp pressOffsetAtTemp
  = (rawPressure * sensAtTemp / 2 ^ 21 - pressOffsetAtTemp) / 2 ^ 15.
Proof.
  intros HL Hraw Hs Ho. unfold calcPressure, int64_is_long. rewrite HL.
  change (64 =? 64) with true. cbv iota.
  change (u64 (Z.shiftl 1 21)) with (2 ^ 21). change (u64 (Z.shiftl 1 15)) with (2 ^ 15).
  rewrite (u32_small rawPressure), (s64_small sensAtTemp), (s64_small pressOffsetAtTemp)
    by lia.
  assert (Hprod : 0 <= rawPressure * sensAtTemp < 2 ^ 57) by nia.
  rewrite (s64_small (rawPressure * sensAtTemp)) by lia.
  rewrite (u64_small (rawPressure * sensAtTemp)) by lia.
  assert (Hx : 0 <= rawPressure * sensAtTemp / 2 ^ 21 < 2 ^ 36).
  { split; [apply Z.div_pos; lia | apply Z.div_lt_upper_bound; lia]. }
  set (x := rawPressure * sensAtTemp / 2 ^ 21) in *.
  rewrite (u64_small x), (u64_small pressOffsetAtTemp) by lia.
  assert (Hq : - 2 ^ 17 <= (x - pressOffsetAtTemp) / 2 ^ 15 < 2 ^ 21).
  { split; [apply Z.div_le_lower_bound; lia | apply Z.div_lt_upper_bound; lia]. }
  destruct (Z_lt_le_dec (x - pressOffsetAtTemp) 0) as [Hneg | Hpos].
  - rewrite u64_neg by lia.
    replace (x - pressOffsetAtTemp + 2 ^ 64)
      with (x - pressOffsetAtTemp + 2 ^ 49 * 2 ^ 15) by lia.
    rewrite Z.div_add by lia.
    replace (2 ^ 49) with (2 ^ 17 * 2 ^ 32) by lia.
    rewrite s32_shift. apply s32_small. unfold INT_MIN, INT_MAX. lia.
  - rewrite u64_small by lia. apply s32_small. unfold INT_MIN, INT_MAX. lia.
Qed.

(** X15.  Where [unsigned long] has 64 bits, for the same arguments,
    [calcPressure] returns
    [floor ((rawPressure * sensAtTemp / 2^21 - pressOffsetAtTemp) / 2^15)]:
    the unsigned subtraction wraps when the offset is the larger term and
    the conversion to [int32_t] undoes the wrap, the quotient being
    rounded down. *)
Theorem calcPressure_floor_ulong64 (abi : ABI)
    (rawPressure sensAtTemp pressOffsetAtTemp : Z) :
  ulong_bits abi = 64 ->
  0 <= rawPressure < 2 ^ 24 ->
  0 <= sensAtTemp < 2 ^ 33 ->
  0 <= pressOffsetAtTemp < 2 ^ 32 ->
  calcPressure abi rawPressure sensAtTemp pressOffsetAtTemp
  = (rawPressure * sensAtTemp / 2 ^ 21 - pressOffsetAtTemp) / 2 ^ 15.
Proof. apply calcPressure_floor_ulong64_value. Qed.

Lemma calcPressure_floor_ulong64_witness :
  calcPressure aarch64 6465444 3039050829 3000000000
  = (6465444 * 3039050829 / 2 ^ 21 - 3000000000) / 2 ^ 15.
Proof.
  refine (calcPressure_floor_ulong64 aarch64 6465444 3039050829 3000000000 eq_refl _ _ _);
    lia.
Defined.

Lemma quot_pow2_15_bounds (a : Z) :
  - 2 ^ 32 <= a < 2 ^ 36 -> - 2 ^ 17 <= Z.quot a (2 ^ 15) < 2 ^ 21.
Proof.
  intros Ha. destruct (Z_lt_le_dec a 0) as [Hneg | Hpos].
  - replace a with (- (- a)) by lia. rewrite Z.quot_opp_l by lia.
    rewrite Z.quot_div_nonneg by lia.
    assert (0 <= - a / 2 ^ 15 <= 2 ^ 17).
    { split; [apply Z.div_pos; lia | apply Z.div_le_upper_bound; lia]. }
    lia.
  - rewrite Z.quot_div_nonneg by lia.
    split; [| apply Z.div_lt_upper_bound; lia].
    assert (0 <= a / 2 ^ 15) by (apply Z.div_pos; lia). lia.
Qed.

(** X16.  The pressure functions compose without overflow: for a 24-bit
    raw pressure and whatever calibration words and [dTemp],
    [calcPressure] applied to the results of [calcSensAtTemp] and
    [calcPressOffsetAtTemp] lies between [-2^17] and [2^21 - 1], and
    where the scaled product is not below the offset it is
    [(rawPressure * sens / 2^21 - offset) / 2^15] on both widths of
    [unsigned long]. *)
Theorem pressure_pipeline_composes (abi : ABI)
    (rawPressure dTemp pressSens tempCoeffOfPressSens pressOffset tempCoeffOfPressOffset : Z) :
  ulong_bits abi = 32 \/ ulong_bits abi = 64 ->
  0 <= rawPressure < 2 ^ 24 ->
  let sens := calcSensAtTemp abi dTemp pressSens tempCoeffOfPressSens in
  let offset := calcPressOffsetAtTemp dTemp pressOffset tempCoeffOfPressOffset in
  - 2 ^ 17 <= calcPressure abi rawPressure sens offset < 2 ^ 21 /\
  (offset <= rawPressure * sens / 2 ^ 21 ->
   calcPressure abi rawPressure sens offset
   = (rawPressure * sens / 2 ^ 21 - offset) / 2 ^ 15).
Proof.
  intros HL Hraw sens offset.
  pose proof (calcSensAtTemp_range abi dTemp pressSens tempCoeffOfPressSens HL) as Hs.
  pose proof (calcPressOffsetAtTemp_range dTemp pressOffset tempCoeffOfPressOffset) as Ho.
  fold sens in Hs. fold offset in Ho.
  assert (Hprod : 0 <= rawPressure * sens < 2 ^ 57) by nia.
  assert (Hx : 0 <= rawPressure * sens / 2 ^ 21 < 2 ^ 36).
  { split; [apply Z.div_pos; lia | apply Z.div_lt_upper_bound; lia]. }
  destruct HL as [HL | HL].
  - rewrite (calcPressure_exact_ulong32_value abi rawPressure sens offset HL Hraw Hs Ho).
    set (x := rawPressure * sens / 2 ^ 21) in *.
    split; [apply quot_pow2_15_bounds; lia |].
    intros Hge. apply Z.quot_div_nonneg; lia.
  - rewrite (calcPressure_floor_ulong64_value abi rawPressure sens offset HL Hraw Hs Ho).
    set (x := rawPressure * sens / 2 ^ 21) in *.
    split; [| reflexivity].
    split; [apply Z.div_le_lower_bound; lia | apply Z.div_lt_upper_bound; lia].
Qed.

Lemma pressure_pipeline_composes_witness :
  - 2 ^ 17 <= calcPressure armhf 6465444
                (calcSensAtTemp armhf 2366 46372 29059)
                (calcPressOffsetAtTemp 2366 36924 23317) < 2 ^ 21.
Proof.
  refine (proj1 (pressure_pipeline_composes armhf 6465444 2366 46372 29059 36924 23317
                   (or_introl eq_refl) _)).
  lia.
Defined.

(** ** Further properties of the bus transactions *)

Lemma perror_run {D} (msg : string) (w : world D) :
  perror msg w = (Returns tt, mkWorld (device w) (trace w ++ [EvPerror msg])).
Proof. reflexivity. Qed.

Lemma report_and_exit_run {D A} (msg : string) (status : Z) (w : world D) :
  (perror msg;; (exit status : M D A)) w
  = (Exits status, mkWorld (device w) (trace w ++ [EvPerror msg])).
Proof. reflexivity. Qed.

Lemma bind_exits {D A B} (m : M D A) (f : A -> M D B) (w w' : world D) (status : Z) :
  m w = (Exits status, w') -> (m ≫= f) w = (Exits status, w').
Proof. intros Hm. unfold mbind, M_bind. rewrite Hm. reflexivity. Qed.

(** One step of a run, as in the section above, with the error path. *)
Ltac run_step :=
  cbv iota;
  first
    [ rewrite (bind_run _ _ _ _ _ (ret_run tt _))
    | rewrite (bind_run _ _ _ _ _ (sleep_run _ _))
    | rewrite (bind_run _ _ _ _ _ (perror_run _ _))
    | rewrite (bind_run _ _ _ _ _ (i2cWriteByte_run _ _ _))
    | rewrite (bind_run _ _ _ _ _ (i2cReadDevice_run _ _ _ _))
    | rewrite (bind_run _ _ _ _ _ (gpioInitialise_run _))
    | rewrite (bind_run _ _ _ _ _ (i2cOpen_run _ _ _ _))
    | rewrite (bind_exits _ _ _ _ _ (report_and_exit_run _ _ _)) ];
  cbn [device trace].

(** X17.  [initGPIO] gives up before it touches the device: when
    [gpioInitialise] fails it reports and exits without opening the bus,
    and when [i2cOpen] fails it reports and exits without writing the
    reset command. *)
Theorem initGPIO_exits_before_reset {D : Type} `{Transport D}
    (bus addr : Z) (w : world D) :
  (init_rc (device w) < 0 ->
   initGPIO bus addr w
   = (Exits EXIT_FAILURE,
      mkWorld (init_next (device w))
              (trace w ++ [EvGpioInitialise; EvPerror "Initialisation failed\n"]))) /\
  (0 <= init_rc (device w) ->
   open_rc bus addr 0 (init_next (device w)) < 0 ->
   initGPIO bus addr w
   = (Exits EXIT_FAILURE,
      mkWorld (open_next bus addr 0 (init_next (device w)))
              (trace w ++ [EvGpioInitialise; EvOpen bus addr 0;
                           EvPerror "Device failed to  open\n"]))).
Proof.
  split.
  - intros Hi. unfold initGPIO. run_step.
    apply Z.ltb_lt in Hi. rewrite Hi. run_step.
    rewrite <- !app_assoc. reflexivity.
  - intros Hi Ho. unfold initGPIO. run_step.
    apply Z.ltb_ge in Hi. rewrite Hi. run_step. run_step.
    apply Z.ltb_lt in Ho. rewrite Ho. run_step.
    rewrite <- !app_assoc. reflexivity.
Qed.

(** X18.  A reset command the bus does not acknowledge does not stop
    [initGPIO]: it reports the error and returns the handle all the
    same. *)
Theorem initGPIO_tolerates_failed_reset {D : Type} `{Transport D}
    (bus addr : Z) (w : world D) :
  let d1 := init_next (device w) in
  let fd := open_rc bus addr 0 d1 in
  0 <= init_rc (device w) ->
  0 <= fd ->
  write_rc fd CMD_RESET (open_next bus addr 0 d1) <> 0 ->
  initGPIO bus addr w
  = (Returns fd,
     mkWorld (write_next fd CMD_RESET (open_next bus addr 0 d1))
             (trace w ++ [EvGpioInitialise; EvOpen bus addr 0; EvWrite fd CMD_RESET;
                          EvPerror "Error sending reset---\n"])).
Proof.
  cbv zeta. intros Hi Ho Hw. unfold initGPIO. run_step.
  apply Z.ltb_ge in Hi. rewrite Hi. run_step. run_step.
  apply Z.ltb_ge in Ho. rewrite Ho. run_step. run_step.
  apply Z.eqb_neq in Hw. rewrite Hw. cbn [negb]. run_step.
  unfold mret, M_ret. rewrite <- !app_assoc. reflexivity.
Qed.

Lemma initGPIO_tolerates_failed_reset_witness :
  initGPIO 1 0x77 (boot (mkScripted [(0, []); (5, []); (-82, [])]))
  = (Returns 5,
     mkWorld (mkScripted [])
             [EvGpioInitialise; EvOpen 1 0x77 0; EvWrite 5 CMD_RESET;
              EvPerror "Error sending reset---\n"]).
Proof.
  refine (initGPIO_tolerates_failed_reset 1 0x77
            (boot (mkScripted [(0, []); (5, []); (-82, [])])) _ _ _);
    vm_compute; discriminate.
Defined.

(** X19.  [getRawTemp] stops at the first write the bus does not
    acknowledge: after a failed conversion trigger it neither waits nor
    sends the ADC read command, and after a failed ADC read command it
    does not read. *)
Theorem getRawTemp_exits_on_failed_write {D : Type} `{Transport D}
    (abi : ABI) (fd : Z) (w : world D) :
  (write_rc fd CONVERT_D2_OSR8192 (device w) <> 0 ->
   getRawTemp abi fd w
   = (Exits EXIT_FAILURE,
      mkWorld (write_next fd CONVERT_D2_OSR8192 (device w))
              (trace w ++ [EvWrite fd CONVERT_D2_OSR8192;
                           EvPerror "Error writing PROM command\n"]))) /\
  (write_rc fd CONVERT_D2_OSR8192 (device w) = 0 ->
   write_rc fd ADC_READ (write_next fd CONVERT_D2_OSR8192 (device w)) <> 0 ->
   getRawTemp abi fd w
   = (Exits EXIT_FAILURE,
      mkWorld (at_read fd CONVERT_D2_OSR8192 (device w))
              (trace w ++ [EvWrite fd CONVERT_D2_OSR8192; EvSleep 1; EvWrite fd ADC_READ;
                           EvPerror "Error writing PROM command\n"]))).
Proof.
  split.
  - intros Hw. unfold getRawTemp. run_step.
    apply Z.eqb_neq in Hw. rewrite Hw. cbn [negb]. run_step.
    rewrite <- !app_assoc. reflexivity.
  - intros Hw1 Hw2. unfold getRawTemp, at_read. run_step.
    rewrite Hw1. cbn [Z.eqb negb]. run_step. run_step. run_step.
    apply Z.eqb_neq in Hw2. rewrite Hw2. cbn [negb]. run_step.
    rewrite <- !app_assoc. reflexivity.
Qed.

Lemma getCalibData_body_write_fails {D : Type} `{Transport D}
    (abi : ABI) (fd i : Z) (buf proms : list Z) (w : world D) :
  write_rc fd i (device w) <> 0 ->
  getCalibData_body abi fd 2 i (buf, proms) w
  = (Exits EXIT_FAILURE,
     mkWorld (write_next fd i (device w))
             (trace w ++ [EvWrite fd i; EvPerror "Error writing PROM command!!\n"])).
Proof.
  intros Hw. unfold getCalibData_body. run_step.
  apply Z.eqb_neq in Hw. rewrite Hw. cbn [negb]. run_step.
  rewrite <- !app_assoc. reflexivity.
Qed.

(** What one iteration can do on any bus: leave through
    [exit(EXIT_FAILURE)], or store one word and go on. *)
Lemma getCalibData_body_outcome {D : Type} `{Transport D}
    (abi : ABI) (fd i : Z) (buf proms : list Z) (w : world D) :
  (exists w', getCalibData_body abi fd 2 i (buf, proms) w = (Exits EXIT_FAILURE, w')) \/
  (exists buf' proms' w',
     getCalibData_body abi fd 2 i (buf, proms) w = (Returns (buf', proms'), w') /\
     length proms' = length proms).
Proof.
  destruct (Z.eq_dec (write_rc fd i (device w)) 0) as [Hw | Hw].
  - destruct (Z_lt_le_dec 0 (read_rc fd 2 (write_next fd i (device w)))) as [Hr | Hr].
    + right. eexists _, _, _. split.
      * apply (getCalibData_body_run abi fd i buf proms w Hw Hr).
      * apply length_insert.
    + left. pose proof (getCalibData_body_read_fails abi fd i buf proms w Hw Hr) as Hb.
      destruct (getCalibData_body abi fd 2 i (buf, proms) w) as [out w'].
      cbn in Hb. subst out. exists w'. reflexivity.
  - left. eexists. apply getCalibData_body_write_fails. exact Hw.
Qed.

Lemma calibration_fold_outcome {D : Type} `{Transport D}
    (abi : ABI) (fd : Z) (addrs : list Z) :
  forall (buf proms : list Z) (w : world D),
    (exists w', fold_body (getCalibData_body abi fd 2) addrs (buf, proms) w
                = (Exits EXIT_FAILURE, w')) \/
    (exists buf' proms' w',
       fold_body (getCalibData_body abi fd 2) addrs (buf, proms) w
       = (Returns (buf', proms'), w') /\
       length proms' = length proms).
Proof.
  induction addrs as [| i rest IH]; intros buf proms w.
  - right. exists buf, proms, w. split; reflexivity.
  - cbn [fold_body].
    destruct (getCalibData_body_outcome abi fd i buf proms w)
      as [[w' Hb] | (buf' & proms' & w' & Hb & Hl)].
    + left. exists w'. apply bind_exits. exact Hb.
    + rewrite (bind_run _ _ _ _ _ Hb).
      destruct (IH buf' proms' w') as [[w'' Hf] | (buf'' & proms'' & w'' & Hf & Hl')].
      * left. exists w''. exact Hf.
      * right. exists buf'', proms'', w''. split; [exact Hf | congruence].
Qed.

(** X20.  On any bus, whatever it answers, [getCalibData] ends in one of
    two ways: it returns 0 with an array of the length it was given, or
    the process exits with [EXIT_FAILURE].  It has no other return
    value: a caller cannot see a failure. *)
Theorem getCalibData_returns_zero_or_exits {D : Type} `{Transport D}
    (abi : ABI) (fd : Z) (proms : list Z) (w : world D) :
  (exists w', getCalibData abi fd proms w = (Exits EXIT_FAILURE, w')) \/
  (exists proms' w',
     getCalibData abi fd proms w = (Returns (0, proms'), w') /\
     length proms' = length proms).
Proof.
  unfold getCalibData.
  pose proof (for_loop_counters (fun i => i <? PROM_STOP) (fun i => s32 (i + 2))
                (getCalibData_body abi fd 2) _ _ ([0; 0], proms) _ w
                getCalibData_counters) as Hloop.
  destruct (calibration_fold_outcome abi fd prom_addresses [0; 0] proms w)
    as [[w' Hf] | (buf' & proms' & w' & Hf & Hl)].
  - left. exists w'. apply bind_exits. rewrite Hloop. exact Hf.
  - right. exists proms', w'. split; [| exact Hl].
    rewrite (bind_run _ _ _ _ _ (eq_trans Hloop Hf)). reflexivity.
Qed.

(** X21.  An address write the bus does not acknowledge stops the
    calibration loop at that address, before the read of its word: the
    loop entered at a counter below [PROM_STOP] reports and exits, and
    so does [getCalibData] when the write of [PROM_START] fails. *)
Theorem getCalibData_exits_on_failed_write {D : Type} `{Transport D}
    (abi : ABI) (fd : Z) (w : world D) :
  (forall (fuel : nat) (i : Z) (buf proms : list Z),
     i < PROM_STOP ->
     write_rc fd i (device w) <> 0 ->
     for_loop (S fuel) (fun i => i <? PROM_STOP) (fun i => s32 (i + 2))
       (getCalibData_body abi fd 2) i (buf, proms) w
     = (Exits EXIT_FAILURE,
        mkWorld (write_next fd i (device w))
                (trace w ++ [EvWrite fd i; EvPerror "Error writing PROM command!!\n"]))) /\
  (forall proms : list Z,
     write_rc fd PROM_START (device w) <> 0 ->
     getCalibData abi fd proms w
     = (Exits EXIT_FAILURE,
        mkWorld (write_next fd PROM_START (device w))
                (trace w ++ [EvWrite fd PROM_START;
                             EvPerror "Error writing PROM command!!\n"]))).
Proof.
  assert (Hloop : forall (fuel : nat) (i : Z) (buf proms : list Z),
     i < PROM_STOP ->
     write_rc fd i (device w) <> 0 ->
     for_loop (S fuel) (fun i => i <? PROM_STOP) (fun i => s32 (i + 2))
       (getCalibData_body abi fd 2) i (buf, proms) w
     = (Exits EXIT_FAILURE,
        mkWorld (write_next fd i (device w))
                (trace w ++ [EvWrite fd i; EvPerror "Error writing PROM command!!\n"]))).
  { intros fuel i buf proms Hi Hw. cbn [for_loop]. apply Z.ltb_lt in Hi. rewrite Hi.
    apply bind_exits. apply getCalibData_body_write_fails. exact Hw. }
  split; [exact Hloop |].
  intros proms Hw. unfold getCalibData. apply bind_exits.
  change (Z.to_nat (PROM_STOP - PROM_START)) with 14%nat.
  apply Hloop; [reflexivity | exact Hw].
Qed.

(** X22.  On a bus that reports no error, what [getTemp] returns and
    leaves behind does not depend on what its local array [proms] held
    before the calibration read: every slot [calcTemp] reads has been
    overwritten. *)
Theorem getTemp_ignores_uninitialised_proms {D : Type} `{Transport D}
    (abi : ABI) (proms1 proms2 : list Z) (fd : Z) (w : world D) :
  bus_ok ->
  length proms1 = 8%nat ->
  length proms2 = 8%nat ->
  getTemp abi proms1 fd w = getTemp abi proms2 fd w.
Proof.
  intros Hok H1 H2.
  pose proof (getTemp_run abi Hok proms1 fd w) as Hg1.
  pose proof (getTemp_run abi Hok proms2 fd w) as Hg2.
  cbv zeta in Hg1, Hg2. rewrite Hg1, Hg2.
  set (d := read_next fd 3 (at_read fd CONVERT_D2_OSR8192 (device w))).
  pose proof (calib_stores_slots abi fd d) as Hslots.
  rewrite (apply_stores_seven _ _ Hslots H1), (apply_stores_seven _ _ Hslots H2).
  assert (Hlen : length (map snd (calib_walk abi fd prom_addresses [0; 0] d).1.1) = 7%nat).
  { rewrite length_map, <- (length_map fst), Hslots. reflexivity. }
  unfold calcTemp, aget.
  rewrite !lookup_app_l by (rewrite Hlen; lia).
  reflexivity.
Qed.

Lemma getTemp_ignores_uninitialised_proms_witness :
  bus_ok (D := steady) /\
  getTemp armhf (repeat 0 8) 0 (boot (scenario_bus 0x82 0x3C 0x00))
  = getTemp armhf (repeat 0xFFFF 8) 0 (boot (scenario_bus 0x82 0x3C 0x00)).
Proof.
  split; [exact steady_ok |].
  exact (getTemp_ignores_uninitialised_proms armhf (repeat 0 8) (repeat 0xFFFF 8) 0
           (boot (scenario_bus 0x82 0x3C 0x00)) steady_ok eq_refl eq_refl).
Defined.

(** X23.  With plain [char] unsigned, line 75 of [getCalibData] joins
    the two bytes of the buffer, high byte first, into a 16-bit word. *)
Theorem prom_word_big_endian (abi : ABI) (b0 b1 : Z) :
  char_is_signed abi = false ->
  0 <= b0 < 256 -> 0 <= b1 < 256 ->
  prom_word abi [b0; b1] = b0 * 256 + b1 /\
  0 <= prom_word abi [b0; b1] < 2 ^ 16.
Proof. apply prom_word_value. Qed.

Lemma prom_word_big_endian_witness : prom_word armhf [0x71; 0x60] = 0x71 * 256 + 0x60.
Proof.
  refine (proj1 (prom_word_big_endian armhf 0x71 0x60 eq_refl _ _)); lia.
Defined.

Lemma byte_values_complete (b : Z) : 0 <= b < 256 -> In b byte_values.
Proof.
  intros Hb. unfold byte_values. apply in_map_iff. exists (Z.to_nat b).
  split; [lia | apply in_seq; lia].
Qed.

Lemma prom_word_signed_table :
  forallb (fun b0 =>
    forallb (fun b1 =>
      if b1 <? 128 then prom_word x86_64 [b0; b1] =? b0 * 256 + b1
      else prom_word x86_64 [b0; b1] =? 0xFF00 + b1) byte_values) byte_values
  = true.
Proof. vm_compute. reflexivity. Qed.

(** X24.  With plain [char] signed, line 75 keeps the high byte only
    while the low byte is below 0x80: a low byte from 0x80 up is sign
    extended by the promotion to [int] and the word stored is
    [0xFF00 + low byte], whatever the high byte was. *)
Theorem prom_word_signed_char (abi : ABI) (b0 b1 : Z) :
  char_is_signed abi = true ->
  0 <= b0 < 256 -> 0 <= b1 < 256 ->
  prom_word abi [b0; b1] = if b1 <? 128 then b0 * 256 + b1 else 0xFF00 + b1.
Proof.
  intros Hc H0 H1.
  assert (Habi : prom_word abi [b0; b1] = prom_word x86_64 [b0; b1]).
  { unfold prom_word, bufc, char_val. rewrite Hc. reflexivity. }
  rewrite Habi.
  pose proof prom_word_signed_table as Ht.
  rewrite forallb_forall in Ht.
  specialize (Ht b0 (byte_values_complete b0 H0)).
  rewrite forallb_forall in Ht.
  specialize (Ht b1 (byte_values_complete b1 H1)). cbv beta in Ht.
  destruct (b1 <? 128); apply Z.eqb_eq in Ht; exact Ht.
Qed.

Lemma prom_word_signed_char_witness : prom_word x86_64 [0x71; 0x80] = 0xFF80.
Proof.
  refine (prom_word_signed_char x86_64 0x71 0x80 eq_refl _ _); lia.
Defined.

(** Whatever the bus delivers, the buffer of three bytes holds three
    byte values after the read. *)
Lemma store_bytes_three (data : list Z) :
  exists b0 b1 b2,
    store_bytes [0; 0; 0] data 3 = [b0; b1; b2] /\
    0 <= b0 < 256 /\ 0 <= b1 < 256 /\ 0 <= b2 < 256.
Proof.
  assert (Hu : forall x, 0 <= u8 x < 256)
    by (intros x; unfold u8, wrap_u; apply Z.mod_pos_bound; lia).
  unfold store_bytes. change (Z.to_nat 3) with 3%nat.
  destruct data as [| a [| b [| c rest]]]; cbn.
  - exists 0, 0, 0. repeat split; lia.
  - exists (u8 a), 0, 0. pose proof (Hu a). repeat split; lia.
  - exists (u8 a), (u8 b), 0. pose proof (Hu a). pose proof (Hu b). repeat split; lia.
  - exists (u8 a), (u8 b), (u8 c).
    pose proof (Hu a). pose proof (Hu b). pose proof (Hu c). repeat split; lia.
Qed.

(** X25.  With plain [char] unsigned, on a bus that reports no error,
    [getRawTemp] returns a value below [2^24], whatever bytes the bus
    delivers, after exactly these bus calls: the conversion trigger, a
    wait of one second, the ADC read command, the read of three bytes
    and another wait of one second. *)
Theorem getRawTemp_returns_24_bits {D : Type} `{Transport D}
    (abi : ABI) (fd : Z) (w : world D) :
  bus_ok ->
  char_is_signed abi = false ->
  exists (rawTemp : Z) (w' : world D),
    getRawTemp abi fd w = (Returns rawTemp, w') /\
    0 <= rawTemp < 2 ^ 24 /\
    trace w' = trace w ++ [EvWrite fd CONVERT_D2_OSR8192; EvSleep 1; EvWrite fd ADC_READ;
                           EvRead fd 3; EvSleep 1].
Proof.
  intros Hok Hc.
  pose proof (getRawTemp_run abi fd w (write_ok Hok _ _ _) (write_ok Hok _ _ _)
                (read_ok Hok _ _ _)) as Hrun.
  destruct (store_bytes_three (read_data fd 3 (at_read fd CONVERT_D2_OSR8192 (device w))))
    as (b0 & b1 & b2 & Hbuf & H0 & H1 & H2).
  rewrite Hbuf in Hrun.
  destruct (rawTemp_word_big_endian abi b0 b1 b2 Hc H0 H1 H2) as (_ & _ & Hr).
  eexists _, _. split; [exact Hrun |]. split; [| reflexivity].
  rewrite u32_small by lia. exact Hr.
Qed.

Lemma getRawTemp_returns_24_bits_witness :
  bus_ok (D := steady) /\
  exists (rawTemp : Z) (w' : world steady),
    getRawTemp armhf 0 (boot (scenario_bus 0x82 0x3C 0x00)) = (Returns rawTemp, w') /\
    0 <= rawTemp < 2 ^ 24 /\
    trace w' = trace (boot (scenario_bus 0x82 0x3C 0x00))
               ++ [EvWrite 0 CONVERT_D2_OSR8192; EvSleep 1; EvWrite 0 ADC_READ;
                   EvRead 0 3; EvSleep 1].
Proof.
  split; [exact steady_ok |].
  exact (getRawTemp_returns_24_bits armhf 0 (boot (scenario_bus 0x82 0x3C 0x00))
           steady_ok eq_refl).
Defined.

(** X26.  [getRawPressure] cannot return from a bus whose reads return
    at most the three bytes asked for: whatever the writes answer, the
    process exits with [EXIT_FAILURE]. *)
Theorem getRawPressure_never_returns {D : Type} `{Transport D}
    (abi : ABI) (fd : Z) (w : world D) :
  (forall d, read_rc fd 3 d <= 3) ->
  fst (getRawPressure abi fd w) = Exits EXIT_FAILURE.
Proof.
  intros Hread.
  destruct (Z.eq_dec (write_rc fd CONVERT_D1_OSR8192 (device w)) 0) as [Hw1 | Hw1].
  - destruct (Z.eq_dec (write_rc fd ADC_READ
                          (write_next fd CONVERT_D1_OSR8192 (device w))) 0)
      as [Hw2 | Hw2].
    + apply (getRawPressure_read_fails abi fd w Hw1 Hw2). apply Hread.
    + unfold getRawPressure. run_step.
      rewrite Hw1. cbn [Z.eqb negb]. run_step. run_step. run_step.
      apply Z.eqb_neq in Hw2. rewrite Hw2. cbn [negb]. run_step. reflexivity.
  - unfold getRawPressure. run_step.
    apply Z.eqb_neq in Hw1. rewrite Hw1. cbn [negb]. run_step. reflexivity.
Qed.

Lemma getRawPressure_never_returns_witness :
  fst (getRawPressure armhf 0 (boot (scenario_bus 0x12 0x34 0x56))) = Exits EXIT_FAILURE.
Proof.
  apply (getRawPressure_never_returns armhf 0 (boot (scenario_bus 0x12 0x34 0x56))).
  intros d. unfold read_rc. cbn. destruct (queued d); cbn; lia.
Defined.
